(** * surfnerd: forecast synthesis and buoy observation merging

    A shallow embedding of the Go package [surfnerd] (files
    [surfforecast.go], [buoy.go], [buoyitem.go], [location.go]) and the
    properties stated about it.

    Conventions of the embedding:
    - a Go [float64] is an IEEE 754 binary64 value: [spec_float] with
      precision 53 and maximal exponent 1024; comparisons are the IEEE
      ones (any comparison with NaN is false, [+0 == -0]);
    - a Go slice is an [option (list A)], [None] being the nil slice;
    - a pointer argument is an [option], [None] being the nil pointer;
    - a run-time panic is the outcome [Panicked];
    - a method with a pointer receiver takes the receiver's value and
      returns the updated value; a function that mutates its pointer
      arguments returns their final values next to its result. *)

From Stdlib Require Import ZArith Lia Bool String Ascii.
From Stdlib Require Import Floats.SpecFloat.
From Stdlib Require DecimalString.
From stdpp Require Import base list.

Open Scope Z_scope.
Open Scope string_scope.

(** ** IEEE 754 binary64 *)

Module Float64.

Definition float64 : Type := spec_float.

Definition prec : Z := 53.
Definition emax : Z := 1024.

(** The conversion [float64(n)] of an integer: to nearest, ties to even. *)
Definition of_Z (n : Z) : float64 := binary_normalize prec emax n 0 false.

Definition zero : float64 := S754_zero false.
Definition one : float64 := Eval cbv in of_Z 1.
(** The literal [-1]. *)
Definition minus_one : float64 := Eval cbv in of_Z (-1).

(** Go's [x < y], [x > y] and [x == y]. *)
Definition lt (x y : float64) : bool := SFltb x y.
Definition gt (x y : float64) : bool := lt y x.
Definition eq (x y : float64) : bool := SFeqb x y.

Definition add (x y : float64) : float64 := SFadd prec emax x y.
Definition mul (x y : float64) : float64 := SFmul prec emax x y.
Definition div (x y : float64) : float64 := SFdiv prec emax x y.
(** [math.Abs] *)
Definition abs (x : float64) : float64 := SFabs x.

Definition isNaN (x : float64) : bool :=
  match x with S754_nan => true | _ => false end.

Definition isFinite (x : float64) : bool :=
  match x with S754_zero _ | S754_finite _ _ _ => true | _ => false end.

End Float64.

Import Float64.

(** ** Go run-time model: panics and slices *)

Inductive panic : Type :=
| NilPointerDereference
| IndexOutOfRange (index : nat) (length : nat).

Inductive outcome (A : Type) : Type :=
| Returned (a : A)
| Panicked (p : panic).

Arguments Returned {A} a.
Arguments Panicked {A} p.

(** Sequencing: a panic aborts everything after it. *)
#[global] Instance outcome_bind : MBind outcome := fun A B k m =>
  match m with
  | Returned a => k a
  | Panicked p => Panicked p
  end.

#[global] Instance outcome_ret : MRet outcome := fun A a => Returned a.

(** A slice: [None] is the nil slice, [Some l] a slice holding [l]. *)
Definition slice (A : Type) : Type := option (list A).

(** [len(s)]; the nil slice has length 0. *)
Definition len {A : Type} (s : slice A) : nat :=
  match s with
  | None => 0%nat
  | Some l => length l
  end.

(** [s == nil] *)
Definition isNil {A : Type} (s : slice A) : bool :=
  match s with
  | None => true
  | Some _ => false
  end.

(** [s[i]]: panics unless [i < len(s)]. *)
Definition index {A : Type} (s : slice A) (i : nat) : outcome A :=
  match s with
  | None => Panicked (IndexOutOfRange i 0)
  | Some l =>
      match l !! i with
      | Some a => Returned a
      | None => Panicked (IndexOutOfRange i (length l))
      end
  end.

(** [s[i] = a] for [i < len(s)] (the only use below is in range). *)
Definition assign {A : Type} (s : slice A) (i : nat) (a : A) : slice A :=
  match s with
  | None => None
  | Some l => Some (<[i := a]> l)
  end.

(** [make([]A, n)]: a non-nil slice of [n] zero values. *)
Definition make {A : Type} (zeroValue : A) (n : nat) : slice A :=
  Some (replicate n zeroValue).

(** ** Data model *)

(** location.go, lines 8-13. *)
Module Location.
Record t : Type := mk {
  Latitude : float64;
  Longitude : float64;
  Elevation : float64;
  LocationName : string
}.
End Location.

(** Modelled from the spec: the declaration of [UnitSystem] is missing
    from the files embedded here, which use its constant [Metric] only.
    Section 4.2.1 of the specification says that there are exactly two
    unit systems; it does not name the second one. *)
Inductive UnitSystem : Type := Metric | English.

#[global] Instance UnitSystem_eq_dec : EqDecision UnitSystem.
Proof. solve_decision. Defined.

(** [NOAAModel] is declared in another file of the package; [Units] is
    the only field that surfforecast.go reads. *)
Module NOAAModel.
Record t : Type := mk { Units : UnitSystem }.
End NOAAModel.

(** [Swell] is declared in another file of the package; these are the
    fields that surfforecast.go, lines 109-127, assigns. *)
Module Swell.
Record t : Type := mk {
  WaveHeight : float64;
  Period : float64;
  Direction : float64;
  CompassDirection : string
}.
Definition zeroValue : t := mk zero zero zero "".
End Swell.

(** One record of the wave model's series: the fields that
    surfforecast.go, lines 94-127, reads. *)
Module WaveForecastItem.
Record t : Type := mk {
  Date : string;
  Time : string;
  SurfaceWindSpeed : float64;
  SurfaceWindDirection : float64;
  PrimarySwellWaveHeight : float64;
  PrimarySwellPeriod : float64;
  PrimarySwellDirection : float64;
  SecondarySwellWaveHeight : float64;
  SecondarySwellPeriod : float64;
  SecondarySwellDirection : float64;
  WindSwellWaveHeight : float64;
  WindSwellPeriod : float64;
  WindSwellDirection : float64
}.
End WaveForecastItem.

(** One record of the wind model's series: the fields that
    surfforecast.go, lines 98-101, reads. *)
Module WindForecastItem.
Record t : Type := mk {
  WindSpeed : float64;
  WindGustSpeed : float64;
  WindDirection : float64
}.
End WindForecastItem.

Module WaveForecast.
Record t : Type := mk {
  Location : Location.t;
  Model : NOAAModel.t;
  ForecastData : slice WaveForecastItem.t
}.
End WaveForecast.

Module WindForecast.
Record t : Type := mk {
  Location : Location.t;
  Model : NOAAModel.t;
  ForecastData : slice WindForecastItem.t
}.
End WindForecast.

(** The fields that surfforecast.go, lines 93-169, assigns. *)
Module SurfForecastItem.
Record t : Type := mk {
  Date : string;
  Time : string;
  WindSpeed : float64;
  WindGustSpeed : float64;
  WindDirection : float64;
  WindCompassDirection : string;
  PrimarySwellComponent : Swell.t;
  SecondarySwellComponent : Swell.t;
  TertiarySwellComponent : Swell.t;
  MinimumBreakingHeight : float64;
  MaximumBreakingHeight : float64
}.

(** The zero value [SurfForecastItem{}]. *)
Definition zeroValue : t :=
  mk "" "" zero zero zero "" Swell.zeroValue Swell.zeroValue Swell.zeroValue
     zero zero.
End SurfForecastItem.

(** surfforecast.go, lines 9-22. *)
Module SurfForecast.
Record t : Type := mk {
  Location : Location.t;
  BeachAngle : float64;
  BeachSlope : float64;
  Units : UnitSystem;
  ForecastData : slice SurfForecastItem.t;
  WaveModel : NOAAModel.t;
  WaveModelLocation : Location.t;
  WindModel : NOAAModel.t;
  WindModelLocation : Location.t
}.
End SurfForecast.

(** ** Collaborators of the forecast synthesis

    Functions of the package that surfforecast.go calls and that live in
    other files of the package. *)
Class SurfCollaborators : Type := {
  (** [DegreeToDirection(degree float64) string] *)
  DegreeToDirection : float64 -> string;
  (** [(s Swell) BreakingWaveHeights(beachAngle, depth, beachSlope)]:
      the minimum and the maximum breaking height. *)
  BreakingWaveHeights : Swell.t -> float64 -> float64 -> float64 -> float64 * float64;
  (** [(w *WaveForecast) ChangeUnits(newUnits)] *)
  WaveForecast_ChangeUnits : WaveForecast.t -> UnitSystem -> WaveForecast.t;
  (** [(w *WindForecast) ChangeUnits(newUnits)] *)
  WindForecast_ChangeUnits : WindForecast.t -> UnitSystem -> WindForecast.t;
  (** [(s *SurfForecastItem) ChangeUnits(newUnits)] *)
  SurfForecastItem_ChangeUnits : SurfForecastItem.t -> UnitSystem -> SurfForecastItem.t
}.


(** ** surfforecast.go *)

Section Synthesis.
Context `{SurfCollaborators}.

(** [ChangeUnits], lines 25-35. *)
Definition ChangeUnits (s : SurfForecast.t) (newUnits : UnitSystem) : SurfForecast.t :=
  if decide (SurfForecast.Units s = newUnits) then s
  else
    let forecastData :=
      match SurfForecast.ForecastData s with
      | None => None
      | Some items =>
          Some (map (fun item => SurfForecastItem_ChangeUnits item newUnits) items)
      end in
    SurfForecast.mk
      (SurfForecast.Location s) (SurfForecast.BeachAngle s)
      (SurfForecast.BeachSlope s) newUnits forecastData
      (SurfForecast.WaveModel s) (SurfForecast.WaveModelLocation s)
      (SurfForecast.WindModel s) (SurfForecast.WindModelLocation s).

(** The wind fields of an item, lines 97-107: assigned together. *)
Definition setWind (item : SurfForecastItem.t)
    (windSpeed windGustSpeed windDirection : float64)
    (windCompassDirection : string) : SurfForecastItem.t :=
  SurfForecastItem.mk
    (SurfForecastItem.Date item) (SurfForecastItem.Time item)
    windSpeed windGustSpeed windDirection windCompassDirection
    (SurfForecastItem.PrimarySwellComponent item)
    (SurfForecastItem.SecondarySwellComponent item)
    (SurfForecastItem.TertiarySwellComponent item)
    (SurfForecastItem.MinimumBreakingHeight item)
    (SurfForecastItem.MaximumBreakingHeight item).

(** The swell fields of an item: each branch of lines 131-169 assigns the
    primary component with its breaking heights, the secondary and the
    tertiary component. *)
Definition setSwells (item : SurfForecastItem.t)
    (primary : Swell.t) (minimumBreakingHeight maximumBreakingHeight : float64)
    (secondary tertiary : Swell.t) : SurfForecastItem.t :=
  SurfForecastItem.mk
    (SurfForecastItem.Date item) (SurfForecastItem.Time item)
    (SurfForecastItem.WindSpeed item) (SurfForecastItem.WindGustSpeed item)
    (SurfForecastItem.WindDirection item)
    (SurfForecastItem.WindCompassDirection item)
    primary secondary tertiary minimumBreakingHeight maximumBreakingHeight.

(** "Put the swells in order and set the estimated breaking wave height",
    lines 130-169. *)
Definition rankSwells (surfForecastItem : SurfForecastItem.t)
    (swellOne : Swell.t) (swellOneMin swellOneMax : float64)
    (swellTwo : Swell.t) (swellTwoMin swellTwoMax : float64)
    (swellThree : Swell.t) (swellThreeMin swellThreeMax : float64)
    : SurfForecastItem.t :=
  if gt swellOneMax swellTwoMax then
    if gt swellOneMax swellThreeMax then
      if gt swellTwoMax swellThreeMax then
        setSwells surfForecastItem swellOne swellOneMin swellOneMax swellTwo swellThree
      else
        setSwells surfForecastItem swellOne swellOneMin swellOneMax swellThree swellTwo
    else
      setSwells surfForecastItem swellThree swellThreeMin swellThreeMax swellOne swellTwo
  else if gt swellTwoMax swellThreeMax then
    if gt swellOneMax swellThreeMax then
      setSwells surfForecastItem swellTwo swellTwoMin swellTwoMax swellOne swellThree
    else
      setSwells surfForecastItem swellTwo swellTwoMin swellTwoMax swellThree swellOne
  else
    setSwells surfForecastItem swellThree swellThreeMin swellThreeMax swellTwo swellOne.

(** The three swells built from a wave record, lines 109-113, 116-120
    and 123-127. *)
Definition swellOneOf (w : WaveForecastItem.t) : Swell.t :=
  Swell.mk (WaveForecastItem.PrimarySwellWaveHeight w)
           (WaveForecastItem.PrimarySwellPeriod w)
           (WaveForecastItem.PrimarySwellDirection w)
           (DegreeToDirection (WaveForecastItem.PrimarySwellDirection w)).

Definition swellTwoOf (w : WaveForecastItem.t) : Swell.t :=
  Swell.mk (WaveForecastItem.SecondarySwellWaveHeight w)
           (WaveForecastItem.SecondarySwellPeriod w)
           (WaveForecastItem.SecondarySwellDirection w)
           (DegreeToDirection (WaveForecastItem.SecondarySwellDirection w)).

Definition swellThreeOf (w : WaveForecastItem.t) : Swell.t :=
  Swell.mk (WaveForecastItem.WindSwellWaveHeight w)
           (WaveForecastItem.WindSwellPeriod w)
           (WaveForecastItem.WindSwellDirection w)
           (DegreeToDirection (WaveForecastItem.WindSwellDirection w)).

(** Lines 109-169 of the loop body: the three swells of the wave record,
    their breaking heights at the beach, and the swell fields of the item
    set from their ranking. *)
Definition withRankedSwells (surfForecast : SurfForecast.t)
    (wave : WaveForecastItem.t) (surfForecastItem : SurfForecastItem.t)
    : SurfForecastItem.t :=
  let beachAngle := SurfForecast.BeachAngle surfForecast in
  let depth := Location.Elevation (SurfForecast.WaveModelLocation surfForecast) in
  let beachSlope := SurfForecast.BeachSlope surfForecast in
  let swellOne := swellOneOf wave in
  let minMaxOne := BreakingWaveHeights swellOne beachAngle depth beachSlope in
  let swellTwo := swellTwoOf wave in
  let minMaxTwo := BreakingWaveHeights swellTwo beachAngle depth beachSlope in
  let swellThree := swellThreeOf wave in
  let minMaxThree := BreakingWaveHeights swellThree beachAngle depth beachSlope in
  rankSwells surfForecastItem
    swellOne (fst minMaxOne) (snd minMaxOne)
    swellTwo (fst minMaxTwo) (snd minMaxTwo)
    swellThree (fst minMaxThree) (snd minMaxThree).

(** Lines 93-95: the new item with the date and time of the wave record. *)
Definition datedItem (wave : WaveForecastItem.t) : SurfForecastItem.t :=
  SurfForecastItem.mk
    (WaveForecastItem.Date wave) (WaveForecastItem.Time wave)
    zero zero zero "" Swell.zeroValue Swell.zeroValue Swell.zeroValue
    zero zero.

(** Lines 98-101: the wind fields from the wind model's record. *)
Definition windFromModel (wind : WindForecastItem.t)
    (surfForecastItem : SurfForecastItem.t) : SurfForecastItem.t :=
  setWind surfForecastItem
    (WindForecastItem.WindSpeed wind)
    (WindForecastItem.WindGustSpeed wind)
    (WindForecastItem.WindDirection wind)
    (DegreeToDirection (WindForecastItem.WindDirection wind)).

(** Lines 103-106: the wind fields from the wave record's surface wind;
    the gust speed is [-1]. *)
Definition windFromWave (wave : WaveForecastItem.t)
    (surfForecastItem : SurfForecastItem.t) : SurfForecastItem.t :=
  setWind surfForecastItem
    (WaveForecastItem.SurfaceWindSpeed wave)
    minus_one
    (WaveForecastItem.SurfaceWindDirection wave)
    (DegreeToDirection (WaveForecastItem.SurfaceWindDirection wave)).

(** The body of the loop, lines 93-169, for the index [i]: the item
    that line 172 stores. Every [waveForecast.ForecastData[i]] and
    [windForecast.ForecastData[i]] is an indexing that may panic. *)
Definition forecastItemAt (surfForecast : SurfForecast.t)
    (waveForecast : WaveForecast.t) (windForecast : WindForecast.t)
    (noWindData : bool) (i : nat) : outcome SurfForecastItem.t :=
  wave ← index (WaveForecast.ForecastData waveForecast) i;
  surfForecastItem ←
    (if negb noWindData then
       wind ← index (WindForecast.ForecastData windForecast) i;
       mret (windFromModel wind (datedItem wave))
     else
       mret (windFromWave wave (datedItem wave)));
  mret (withRankedSwells surfForecast wave surfForecastItem).

(** The loop [for i, _ := range waveForecast.ForecastData], lines 92-173,
    from the index [i] on, with [n] iterations left. *)
Fixpoint forecastLoop (surfForecast : SurfForecast.t)
    (waveForecast : WaveForecast.t) (windForecast : WindForecast.t)
    (noWindData : bool) (forecastData : slice SurfForecastItem.t)
    (i n : nat) : outcome (slice SurfForecastItem.t) :=
  match n with
  | O => mret forecastData
  | S n' =>
      surfForecastItem ←
        forecastItemAt surfForecast waveForecast windForecast noWindData i;
      forecastLoop surfForecast waveForecast windForecast noWindData
        (assign forecastData i surfForecastItem) (S i) n'
  end.

Definition withForecastData (s : SurfForecast.t)
    (forecastData : slice SurfForecastItem.t) : SurfForecast.t :=
  SurfForecast.mk
    (SurfForecast.Location s) (SurfForecast.BeachAngle s)
    (SurfForecast.BeachSlope s) (SurfForecast.Units s) forecastData
    (SurfForecast.WaveModel s) (SurfForecast.WaveModelLocation s)
    (SurfForecast.WindModel s) (SurfForecast.WindModelLocation s).

(** Lines 84-89. *)
Definition noWindDataOf (windForecast : WindForecast.t) : bool :=
  if isNil (WindForecast.ForecastData windForecast) then true
  else if (len (WindForecast.ForecastData windForecast) <? 1)%nat then true
  else false.

(** Lines 54-58 and 68-75: the forecast before the loop fills it. *)
Definition emptySurfForecast (loc : Location.t) (beachAngle beachSlope : float64)
    (waveForecast : WaveForecast.t) (windForecast : WindForecast.t)
    : SurfForecast.t :=
  SurfForecast.mk loc beachAngle beachSlope Metric
    (make SurfForecastItem.zeroValue (len (WaveForecast.ForecastData waveForecast)))
    (WaveForecast.Model waveForecast) (WaveForecast.Location waveForecast)
    (WindForecast.Model windForecast) (WindForecast.Location windForecast).

(** Lines 54-58 and 68-174 of [NewSurfForecast]: what happens once both
    inputs are in metric units. The result is [None] for Go's [nil]. *)
Definition synthesize (loc : Location.t) (beachAngle beachSlope : float64)
    (waveForecast : WaveForecast.t) (windForecast : WindForecast.t)
    : outcome (option SurfForecast.t) :=
  let surfForecast :=
    emptySurfForecast loc beachAngle beachSlope waveForecast windForecast in
  if isNil (WaveForecast.ForecastData waveForecast) then mret None
  else if (len (WaveForecast.ForecastData waveForecast) <? 1)%nat then mret None
  else
    let noWindData := noWindDataOf windForecast in
    forecastData ←
      forecastLoop surfForecast waveForecast windForecast noWindData
        (SurfForecast.ForecastData surfForecast)
        0 (len (WaveForecast.ForecastData waveForecast));
    mret (Some (withForecastData surfForecast forecastData)).

(** Lines 61-63: the wave forecast once line 63 is passed. *)
Definition waveInMetric (waveForecast : WaveForecast.t) : WaveForecast.t :=
  if decide (NOAAModel.Units (WaveForecast.Model waveForecast) <> Metric)
  then WaveForecast_ChangeUnits waveForecast Metric else waveForecast.

(** Lines 64-66: the wind forecast once line 66 is passed. *)
Definition windInMetric (windForecast : WindForecast.t) : WindForecast.t :=
  if decide (NOAAModel.Units (WindForecast.Model windForecast) <> Metric)
  then WindForecast_ChangeUnits windForecast Metric else windForecast.

(** What a call of [NewSurfForecast] leaves behind: the two forecasts
    behind the pointer arguments as the call left them, and the returned
    pointer ([None] for [nil]) or the panic. *)
Record call : Type := mkCall {
  waveForecastAfter : option WaveForecast.t;
  windForecastAfter : option WindForecast.t;
  result : outcome (option SurfForecast.t)
}.

(** [NewSurfForecast], lines 53-175. Lines 61 and 64 dereference the two
    pointers, in this order; a nil pointer panics there. *)
Definition NewSurfForecast (loc : Location.t) (beachAngle beachSlope : float64)
    (waveForecast : option WaveForecast.t)
    (windForecast : option WindForecast.t) : call :=
  match waveForecast with
  | None => mkCall None windForecast (Panicked NilPointerDereference)
  | Some wave =>
      let wave := waveInMetric wave in
      match windForecast with
      | None => mkCall (Some wave) None (Panicked NilPointerDereference)
      | Some wind =>
          let wind := windInMetric wind in
          mkCall (Some wave) (Some wind)
            (synthesize loc beachAngle beachSlope wave wind)
      end
  end.

End Synthesis.


(** ** The [time] package, as far as buoy.go uses it *)

Module GoTime.

(** An instant, in nanoseconds since the zero [time.Time]. *)
Definition Time : Type := Z.
Definition zeroTime : Time := 0.

(** [time.Duration]: a signed 64-bit count of nanoseconds. *)
Definition Duration : Type := Z.
Definition minDuration : Duration := - 2 ^ 63.
Definition maxDuration : Duration := 2 ^ 63 - 1.
Definition Second : Duration := 1000000000.

(** [t.Sub(u)]: the duration [t - u], or the minimal or maximal duration
    when [t - u] is out of the range of a [Duration]. *)
Definition Sub (t u : Time) : Duration :=
  Z.max minDuration (Z.min maxDuration (t - u)).

(** [d.Seconds()]: [float64(d / Second) + float64(d % Second) / 1e9],
    with Go's truncating division. *)
Definition Seconds (d : Duration) : float64 :=
  add (of_Z (Z.quot d Second)) (div (of_Z (Z.rem d Second)) (of_Z 1000000000)).

End GoTime.

(** ** buoyitem.go *)

Module BuoyItem.

(** Lines 6-36. Two places where buoy.go and this declaration differ:
    buoy.go reads and writes a field [Date] of type [time.Time], which
    the declaration lacks, so the record carries it next to [Time]; and
    buoy.go assigns strings to [SwellWaveDirection] and
    [WindSwellDirection], so these two are strings here. *)
Record t : Type := mk {
  Time : string;
  Date : GoTime.Time;
  WindDirection : float64;
  WindSpeed : float64;
  WindGust : float64;
  SignificantWaveHeight : float64;
  DominantWavePeriod : float64;
  AveragePeriod : float64;
  DominantWaveDirection : float64;
  MeanWaveDirection : float64;
  SwellWaveHeight : float64;
  SwellWavePeriod : float64;
  SwellWaveDirection : string;
  WindSwellWaveHeight : float64;
  WindSwellWavePeriod : float64;
  WindSwellDirection : string;
  Steepness : string;
  Pressure : float64;
  AirTemperature : float64;
  WaterTemperature : float64;
  DewpointTemperature : float64;
  Visibility : float64;
  PressureTendency : float64;
  WaterLevel : float64
}.

(** The zero value [BuoyItem{}]. *)
Definition zeroValue : t :=
  mk "" GoTime.zeroTime zero zero zero zero zero zero zero zero zero zero
     "" zero zero "" "" zero zero zero zero zero zero zero.

(** Field assignments [b.F = v] of buoy.go, lines 128-170. *)
Definition set_Date (v : GoTime.Time) (b : t) : t :=
  let 'mk f0 _ f2 f3 f4 f5 f6 f7 f8 f9 f10 f11
          f12 f13 f14 f15 f16 f17 f18 f19 f20 f21 f22 f23 := b in
  mk f0 v f2 f3 f4 f5 f6 f7 f8 f9 f10 f11
     f12 f13 f14 f15 f16 f17 f18 f19 f20 f21 f22 f23.

Definition set_SignificantWaveHeight (v : float64) (b : t) : t :=
  let 'mk f0 f1 f2 f3 f4 _ f6 f7 f8 f9 f10 f11
          f12 f13 f14 f15 f16 f17 f18 f19 f20 f21 f22 f23 := b in
  mk f0 f1 f2 f3 f4 v f6 f7 f8 f9 f10 f11
     f12 f13 f14 f15 f16 f17 f18 f19 f20 f21 f22 f23.

Definition set_DominantWavePeriod (v : float64) (b : t) : t :=
  let 'mk f0 f1 f2 f3 f4 f5 _ f7 f8 f9 f10 f11
          f12 f13 f14 f15 f16 f17 f18 f19 f20 f21 f22 f23 := b in
  mk f0 f1 f2 f3 f4 f5 v f7 f8 f9 f10 f11
     f12 f13 f14 f15 f16 f17 f18 f19 f20 f21 f22 f23.

Definition set_Pressure (v : float64) (b : t) : t :=
  let 'mk f0 f1 f2 f3 f4 f5 f6 f7 f8 f9 f10 f11
          f12 f13 f14 f15 f16 _ f18 f19 f20 f21 f22 f23 := b in
  mk f0 f1 f2 f3 f4 f5 f6 f7 f8 f9 f10 f11
     f12 f13 f14 f15 f16 v f18 f19 f20 f21 f22 f23.

Definition set_AirTemperature (v : float64) (b : t) : t :=
  let 'mk f0 f1 f2 f3 f4 f5 f6 f7 f8 f9 f10 f11
          f12 f13 f14 f15 f16 f17 _ f19 f20 f21 f22 f23 := b in
  mk f0 f1 f2 f3 f4 f5 f6 f7 f8 f9 f10 f11
     f12 f13 f14 f15 f16 f17 v f19 f20 f21 f22 f23.

Definition set_WaterTemperature (v : float64) (b : t) : t :=
  let 'mk f0 f1 f2 f3 f4 f5 f6 f7 f8 f9 f10 f11
          f12 f13 f14 f15 f16 f17 f18 _ f20 f21 f22 f23 := b in
  mk f0 f1 f2 f3 f4 f5 f6 f7 f8 f9 f10 f11
     f12 f13 f14 f15 f16 f17 f18 v f20 f21 f22 f23.

Definition set_DewpointTemperature (v : float64) (b : t) : t :=
  let 'mk f0 f1 f2 f3 f4 f5 f6 f7 f8 f9 f10 f11
          f12 f13 f14 f15 f16 f17 f18 f19 _ f21 f22 f23 := b in
  mk f0 f1 f2 f3 f4 f5 f6 f7 f8 f9 f10 f11
     f12 f13 f14 f15 f16 f17 f18 f19 v f21 f22 f23.

Definition set_SwellWaveHeight (v : float64) (b : t) : t :=
  let 'mk f0 f1 f2 f3 f4 f5 f6 f7 f8 f9 _ f11
          f12 f13 f14 f15 f16 f17 f18 f19 f20 f21 f22 f23 := b in
  mk f0 f1 f2 f3 f4 f5 f6 f7 f8 f9 v f11
     f12 f13 f14 f15 f16 f17 f18 f19 f20 f21 f22 f23.

Definition set_WindSwellWaveHeight (v : float64) (b : t) : t :=
  let 'mk f0 f1 f2 f3 f4 f5 f6 f7 f8 f9 f10 f11
          f12 _ f14 f15 f16 f17 f18 f19 f20 f21 f22 f23 := b in
  mk f0 f1 f2 f3 f4 f5 f6 f7 f8 f9 f10 f11
     f12 v f14 f15 f16 f17 f18 f19 f20 f21 f22 f23.

Definition set_SwellWavePeriod (v : float64) (b : t) : t :=
  let 'mk f0 f1 f2 f3 f4 f5 f6 f7 f8 f9 f10 _
          f12 f13 f14 f15 f16 f17 f18 f19 f20 f21 f22 f23 := b in
  mk f0 f1 f2 f3 f4 f5 f6 f7 f8 f9 f10 v
     f12 f13 f14 f15 f16 f17 f18 f19 f20 f21 f22 f23.

Definition set_WindSwellWavePeriod (v : float64) (b : t) : t :=
  let 'mk f0 f1 f2 f3 f4 f5 f6 f7 f8 f9 f10 f11
          f12 f13 _ f15 f16 f17 f18 f19 f20 f21 f22 f23 := b in
  mk f0 f1 f2 f3 f4 f5 f6 f7 f8 f9 f10 f11
     f12 f13 v f15 f16 f17 f18 f19 f20 f21 f22 f23.

Definition set_SwellWaveDirection (v : string) (b : t) : t :=
  let 'mk f0 f1 f2 f3 f4 f5 f6 f7 f8 f9 f10 f11
          _ f13 f14 f15 f16 f17 f18 f19 f20 f21 f22 f23 := b in
  mk f0 f1 f2 f3 f4 f5 f6 f7 f8 f9 f10 f11
     v f13 f14 f15 f16 f17 f18 f19 f20 f21 f22 f23.

Definition set_WindSwellDirection (v : string) (b : t) : t :=
  let 'mk f0 f1 f2 f3 f4 f5 f6 f7 f8 f9 f10 f11
          f12 f13 f14 _ f16 f17 f18 f19 f20 f21 f22 f23 := b in
  mk f0 f1 f2 f3 f4 f5 f6 f7 f8 f9 f10 f11
     f12 f13 f14 v f16 f17 f18 f19 f20 f21 f22 f23.
(** [MergeLatestBuoyReading], lines 38-51: the twelve fields assigned
    there come from [newBuoyData], every other field stays as it is. *)
Definition MergeLatestBuoyReading (b newBuoyData : t) : t :=
  {| Time := Time newBuoyData;
     Date := Date b;
     WindDirection := WindDirection newBuoyData;
     WindSpeed := WindSpeed newBuoyData;
     WindGust := WindGust newBuoyData;
     SignificantWaveHeight := SignificantWaveHeight newBuoyData;
     DominantWavePeriod := DominantWavePeriod newBuoyData;
     AveragePeriod := AveragePeriod newBuoyData;
     DominantWaveDirection := DominantWaveDirection b;
     MeanWaveDirection := MeanWaveDirection newBuoyData;
     SwellWaveHeight := SwellWaveHeight b;
     SwellWavePeriod := SwellWavePeriod b;
     SwellWaveDirection := SwellWaveDirection b;
     WindSwellWaveHeight := WindSwellWaveHeight b;
     WindSwellWavePeriod := WindSwellWavePeriod b;
     WindSwellDirection := WindSwellDirection b;
     Steepness := Steepness b;
     Pressure := Pressure newBuoyData;
     AirTemperature := AirTemperature newBuoyData;
     WaterTemperature := WaterTemperature newBuoyData;
     DewpointTemperature := DewpointTemperature newBuoyData;
     Visibility := Visibility b;
     PressureTendency := PressureTendency b;
     WaterLevel := WaterLevel b |}.

End BuoyItem.


(** ** buoy.go *)

(** Lines 28-41; the field [Type] is [Type_] here. *)
Module Buoy.
Record t : Type := mk {
  Location : option Location.t;
  XMLName : string * string;
  StationID : string;
  Owner : string;
  PGM : string;
  Type_ : string;
  Active : string;
  Currents : string;
  WaterQuality : string;
  Dart : string;
  BuoyData : slice BuoyItem.t
}.

(** The assignment [b.BuoyData = data]. *)
Definition set_BuoyData (data : slice BuoyItem.t) (b : t) : t :=
  mk (Location b) (XMLName b) (StationID b) (Owner b) (PGM b) (Type_ b)
     (Active b) (Currents b) (WaterQuality b) (Dart b) data.
End Buoy.

Definition latestDateLayout : string := "1504 MST 01/02/06".

(** The newline character of ["\n"]. *)
Definition newline : ascii := "010"%char.

(** [strings.Split(s, sep)] for a separator of one byte: the pieces of
    [s] between the occurrences of [sep]; always at least one piece. *)
Fixpoint strings_Split (s : string) (sep : ascii) : list string :=
  match s with
  | EmptyString => [EmptyString]
  | String c rest =>
      if Ascii.eqb c sep then EmptyString :: strings_Split rest sep
      else
        match strings_Split rest sep with
        | piece :: pieces => String c piece :: pieces
        | [] => [String c EmptyString]
        end
  end.

(** What buoy.go calls from elsewhere: one method of the package and
    three functions of Go's standard library, each taken with the value
    it returns (the error is dropped at every call). *)
Class BuoyCollaborators : Type := {
  (** [(b *BuoyItem) InterpolateDominantWaveDirection()] *)
  InterpolateDominantWaveDirection : BuoyItem.t -> BuoyItem.t;
  (** [strconv.ParseFloat(s, 64)] *)
  strconv_ParseFloat : string -> float64;
  (** [strings.TrimSpace(s)] *)
  strings_TrimSpace : string -> string;
  (** [time.Parse(layout, value)] *)
  time_Parse : string -> string -> GoTime.Time
}.

Section BuoyParsing.
Context `{BuoyCollaborators}.

(** The state of the loop of [ParseRawLatestBuoyData]: the item being
    filled and the two flags [swellPeriodRead], [swellDirectionRead]. *)
Definition latestState : Type := (BuoyItem.t * bool * bool)%type.

(** One iteration of the loop, lines 133-174, on the line [line]. *)
Definition parseLatestLine (st : latestState) (line : string) : latestState :=
  let '(buoyDataItem, swellPeriodRead, swellDirectionRead) := st in
  let comps := strings_Split line ":" in
  if (length comps <? 2)%nat then st
  else
    let variable := nth 0 comps "" in
    let rawValue :=
      nth 0 (strings_Split (strings_TrimSpace (nth 1 comps "")) " ") "" in
    if String.eqb variable "Seas" then
      (BuoyItem.set_SignificantWaveHeight (strconv_ParseFloat rawValue) buoyDataItem,
       swellPeriodRead, swellDirectionRead)
    else if String.eqb variable "Peak Period" then
      (BuoyItem.set_DominantWavePeriod (strconv_ParseFloat rawValue) buoyDataItem,
       swellPeriodRead, swellDirectionRead)
    else if String.eqb variable "Pres" then
      (BuoyItem.set_Pressure (strconv_ParseFloat rawValue) buoyDataItem,
       swellPeriodRead, swellDirectionRead)
    else if String.eqb variable "Air Temp" then
      (BuoyItem.set_AirTemperature (strconv_ParseFloat rawValue) buoyDataItem,
       swellPeriodRead, swellDirectionRead)
    else if String.eqb variable "Water Temp" then
      (BuoyItem.set_WaterTemperature (strconv_ParseFloat rawValue) buoyDataItem,
       swellPeriodRead, swellDirectionRead)
    else if String.eqb variable "Dew Point" then
      (BuoyItem.set_DewpointTemperature (strconv_ParseFloat rawValue) buoyDataItem,
       swellPeriodRead, swellDirectionRead)
    else if String.eqb variable "Swell" then
      (BuoyItem.set_SwellWaveHeight (strconv_ParseFloat rawValue) buoyDataItem,
       swellPeriodRead, swellDirectionRead)
    else if String.eqb variable "Wind Wave" then
      (BuoyItem.set_WindSwellWaveHeight (strconv_ParseFloat rawValue) buoyDataItem,
       swellPeriodRead, swellDirectionRead)
    else if String.eqb variable "Period" then
      if negb swellPeriodRead then
        (BuoyItem.set_SwellWavePeriod (strconv_ParseFloat rawValue) buoyDataItem,
         true, swellDirectionRead)
      else
        (BuoyItem.set_WindSwellWavePeriod (strconv_ParseFloat rawValue) buoyDataItem,
         swellPeriodRead, swellDirectionRead)
    else if String.eqb variable "Direction" then
      if negb swellDirectionRead then
        (BuoyItem.set_SwellWaveDirection rawValue buoyDataItem,
         swellPeriodRead, true)
      else
        (BuoyItem.set_WindSwellDirection rawValue buoyDataItem,
         swellPeriodRead, swellDirectionRead)
    else st.

(** Lines 118-177: the item read from the report, or [None] when the
    report has fewer than six lines (the error of line 120). *)
Definition parseLatestBuoyItem (rawBuoyData : string) : option BuoyItem.t :=
  let rawBuoyLineData := strings_Split rawBuoyData newline in
  if (length rawBuoyLineData <? 6)%nat then None
  else
    let rawTime := nth 4 rawBuoyLineData "" in
    let buoyDataItem :=
      BuoyItem.set_Date (time_Parse latestDateLayout rawTime) BuoyItem.zeroValue in
    let '(buoyDataItem, _, _) :=
      fold_left parseLatestLine (drop 5 rawBuoyLineData)
        (buoyDataItem, false, false) in
    Some (InterpolateDominantWaveDirection buoyDataItem).

(** [ParseRawLatestBuoyData], lines 117-190: the buoy after the call and
    the error returned ([None] for [nil]). *)
Definition ParseRawLatestBuoyData (b : Buoy.t) (rawBuoyData : string)
    : Buoy.t * option string :=
  match parseLatestBuoyItem rawBuoyData with
  | None => (b, Some "Could not parse latest buoy data")
  | Some buoyDataItem =>
      match Buoy.BuoyData b with
      | None => (Buoy.set_BuoyData (Some [buoyDataItem]) b, None)
      | Some [] => (Buoy.set_BuoyData (Some [buoyDataItem]) b, None)
      | Some (first :: rest) =>
          (Buoy.set_BuoyData
             (Some (BuoyItem.MergeLatestBuoyReading first buoyDataItem :: rest)) b,
           None)
      end
  end.

End BuoyParsing.

(** One step of the scan of [FindConditionsForDateAndTime], lines
    352-356: the closest item so far and its duration, then the item at
    the next index. *)
Definition closer (date : GoTime.Time)
    (best : BuoyItem.t * GoTime.Duration) (item : BuoyItem.t)
    : BuoyItem.t * GoTime.Duration :=
  let '(minBuoy, minDuration) := best in
  let newDuration := GoTime.Sub date (BuoyItem.Date item) in
  if lt (abs (GoTime.Seconds newDuration)) (abs (GoTime.Seconds minDuration))
  then (item, newDuration)
  else (minBuoy, minDuration).

(** [FindConditionsForDateAndTime], lines 341-360. *)
Definition FindConditionsForDateAndTime (b : Buoy.t) (date : GoTime.Time)
    : BuoyItem.t * GoTime.Duration :=
  match Buoy.BuoyData b with
  | None => (BuoyItem.zeroValue, -1)
  | Some [] => (BuoyItem.zeroValue, -1)
  | Some (first :: rest) =>
      fold_left (closer date) rest
        (first, GoTime.Sub date (BuoyItem.Date first))
  end.


(** ** The breaking height range of a swell *)

Module SpecModel.
Section BreakingHeights.

(** The three physical estimates of section 4.1 of the specification,
    which describes them at design level only: the refraction
    attenuation from the swell direction and the beach angle, the
    shoaling amplification from the period, the depth and the beach
    slope, and the breaking criterion that bounds the nearshore height
    at the depth into a minimum and a maximum. *)
Variable refractionFactor : float64 -> float64 -> float64.
Variable shoalingFactor : float64 -> float64 -> float64 -> float64.
Variable breakingCriterion : float64 -> float64 -> float64 * float64.

(** Modelled from the spec: the code of [(s Swell) BreakingWaveHeights]
    is missing from the files embedded here. Section 4.1: degenerate
    inputs (zero height, or a direction fully shadowed) yield (0, 0);
    otherwise the nearshore height is refraction x shoaling x open-water
    height and the breaking criterion bounds the range. Section 7: a
    computation that would produce a non-finite value clamps to the
    degenerate zero. *)
Definition BreakingWaveHeights (s : Swell.t)
    (beachAngle depth beachSlope : float64) : float64 * float64 :=
  if eq (Swell.WaveHeight s) zero then (zero, zero)
  else
    let refraction := refractionFactor (Swell.Direction s) beachAngle in
    if eq refraction zero then (zero, zero)
    else
      let shoaling := shoalingFactor (Swell.Period s) depth beachSlope in
      let nearshore := mul (mul refraction shoaling) (Swell.WaveHeight s) in
      let range := breakingCriterion nearshore depth in
      if isFinite (fst range) && isFinite (snd range) then range
      else (zero, zero).

End BreakingHeights.
End SpecModel.

(** ** Vocabulary of the statements *)

(** A swell of a time step as the ranking sees it: the position at which
    the loop body declares it (1, 2 or 3), the swell, and its minimum and
    maximum breaking height. *)
Record candidate : Type := mkCandidate {
  declared : nat;
  swell : Swell.t;
  minimum : float64;
  maximum : float64
}.

Section Candidates.
Context `{SurfCollaborators}.

Definition candidateOf (position : nat) (s : Swell.t)
    (surfForecast : SurfForecast.t) : candidate :=
  let range :=
    BreakingWaveHeights s
      (SurfForecast.BeachAngle surfForecast)
      (Location.Elevation (SurfForecast.WaveModelLocation surfForecast))
      (SurfForecast.BeachSlope surfForecast) in
  mkCandidate position s (fst range) (snd range).

Definition candidateOne (surfForecast : SurfForecast.t) (w : WaveForecastItem.t) :=
  candidateOf 1 (swellOneOf w) surfForecast.
Definition candidateTwo (surfForecast : SurfForecast.t) (w : WaveForecastItem.t) :=
  candidateOf 2 (swellTwoOf w) surfForecast.
Definition candidateThree (surfForecast : SurfForecast.t) (w : WaveForecastItem.t) :=
  candidateOf 3 (swellThreeOf w) surfForecast.

(** The item of an iteration of the loop that returns, the zero item
    of one that panics. *)
Definition itemOrZero (surfForecast : SurfForecast.t)
    (waveForecast : WaveForecast.t) (windForecast : WindForecast.t)
    (noWindData : bool) (j : nat) : SurfForecastItem.t :=
  match forecastItemAt surfForecast waveForecast windForecast noWindData j with
  | Returned item => item
  | Panicked _ => SurfForecastItem.zeroValue
  end.

End Candidates.

(** [ahead a b]: [a] may stand before [b] in a ranking by maximum
    breaking height, descending, in which of two equal maxima the one
    declared later comes first. *)
Definition ahead (a b : candidate) : Prop :=
  lt (maximum a) (maximum b) = false /\
  (lt (maximum b) (maximum a) = true \/ (declared b < declared a)%nat).

(** The item carries [p], [s], [t] as primary, secondary and tertiary
    swell, with the breaking heights of [p]. *)
Definition rankedAs (item : SurfForecastItem.t) (p s t : candidate) : Prop :=
  SurfForecastItem.PrimarySwellComponent item = swell p /\
  SurfForecastItem.MinimumBreakingHeight item = minimum p /\
  SurfForecastItem.MaximumBreakingHeight item = maximum p /\
  SurfForecastItem.SecondarySwellComponent item = swell s /\
  SurfForecastItem.TertiarySwellComponent item = swell t.

(** The wind fields of an item are those of the wind record. *)
Definition mirrorsWind (item : SurfForecastItem.t) (wind : WindForecastItem.t) : Prop :=
  SurfForecastItem.WindSpeed item = WindForecastItem.WindSpeed wind /\
  SurfForecastItem.WindGustSpeed item = WindForecastItem.WindGustSpeed wind /\
  SurfForecastItem.WindDirection item = WindForecastItem.WindDirection wind.

(** The wind fields of an item are the surface wind of the wave record,
    with the gust speed [-1]. *)
Definition fallsBackOn (item : SurfForecastItem.t) (wave : WaveForecastItem.t) : Prop :=
  SurfForecastItem.WindSpeed item = WaveForecastItem.SurfaceWindSpeed wave /\
  SurfForecastItem.WindGustSpeed item = minus_one /\
  SurfForecastItem.WindDirection item = WaveForecastItem.SurfaceWindDirection wave.

(** The absolute number of seconds between the query and an item, as
    line 353 compares it. *)
Definition absSeconds (date : GoTime.Time) (item : BuoyItem.t) : float64 :=
  abs (GoTime.Seconds (GoTime.Sub date (BuoyItem.Date item))).


(** ** Sample data *)

Module Samples.

(** Collaborators for the concrete runs below: a compass with one name,
    the breaking heights of [SpecModel] at full exposure, without
    amplification and with the nearshore height as both bounds, and unit
    changes that only set the unit tag. *)
Definition surfCollaborators : SurfCollaborators :=
  {| DegreeToDirection := fun _ => "N";
     BreakingWaveHeights :=
       SpecModel.BreakingWaveHeights
         (fun _ _ => one) (fun _ _ _ => one) (fun h _ => (h, h));
     WaveForecast_ChangeUnits := fun w u =>
       WaveForecast.mk (WaveForecast.Location w) (NOAAModel.mk u)
         (WaveForecast.ForecastData w);
     WindForecast_ChangeUnits := fun w u =>
       WindForecast.mk (WindForecast.Location w) (NOAAModel.mk u)
         (WindForecast.ForecastData w);
     SurfForecastItem_ChangeUnits := fun item _ => item |}.

(** Text collaborators for the concrete runs: numbers are read as
    unsigned decimal integers (0 when there is no digit), nothing is
    trimmed and every date parses to the zero time. *)
Fixpoint digits (s : string) (acc : Z) : Z :=
  match s with
  | String c rest =>
      let n := Z.of_nat (nat_of_ascii c) in
      if ((48 <=? n)%Z && (n <=? 57)%Z)%bool then digits rest (10 * acc + (n - 48))
      else acc
  | EmptyString => acc
  end.

Definition buoyCollaborators : BuoyCollaborators :=
  {| InterpolateDominantWaveDirection := fun b => b;
     strconv_ParseFloat := fun s => of_Z (digits s 0);
     strings_TrimSpace := fun s =>
       match s with
       | String " " rest => rest
       | _ => s
       end;
     time_Parse := fun _ _ => GoTime.zeroTime |}.

Definition beach : Location.t := Location.mk (of_Z 41) (of_Z 288) zero "beach".
Definition gridPoint : Location.t := Location.mk (of_Z 41) (of_Z 288) (of_Z (-5)) "grid".

(** A wave record: swells of 2 m / 10 s / 200 degrees, 1 m / 6 s / 120
    degrees and 1 m / 3 s / 200 degrees; surface wind 5 at 190 degrees. *)
Definition waveRecord : WaveForecastItem.t :=
  WaveForecastItem.mk "20150101" "00Z" (of_Z 5) (of_Z 190)
    (of_Z 2) (of_Z 10) (of_Z 200)
    (of_Z 1) (of_Z 6) (of_Z 120)
    (of_Z 1) (of_Z 3) (of_Z 200).

(** A wave record with three swells of no height and different periods. *)
Definition flatRecord : WaveForecastItem.t :=
  WaveForecastItem.mk "20150101" "03Z" (of_Z 4) (of_Z 180)
    zero (of_Z 10) (of_Z 200)
    zero (of_Z 6) (of_Z 120)
    zero (of_Z 3) (of_Z 200).

Definition windRecord : WindForecastItem.t :=
  WindForecastItem.mk (of_Z 7) (of_Z 9) (of_Z 270).

(** A wave forecast of two records and wind forecasts of none, one and
    two records, all in metric units. *)
Definition waveForecast : WaveForecast.t :=
  WaveForecast.mk gridPoint (NOAAModel.mk Metric) (Some [waveRecord; flatRecord]).
Definition noWind : WindForecast.t :=
  WindForecast.mk gridPoint (NOAAModel.mk Metric) None.
Definition shortWind : WindForecast.t :=
  WindForecast.mk gridPoint (NOAAModel.mk Metric) (Some [windRecord]).
Definition fullWind : WindForecast.t :=
  WindForecast.mk gridPoint (NOAAModel.mk Metric) (Some [windRecord; windRecord]).
(** A wave forecast in the other unit system. *)
Definition englishWaveForecast : WaveForecast.t :=
  WaveForecast.mk gridPoint (NOAAModel.mk English) (Some [waveRecord]).

(** Three swells that differ in their period only. *)
Definition swellA : Swell.t := Swell.mk one (of_Z 10) zero "N".
Definition swellB : Swell.t := Swell.mk one (of_Z 6) zero "N".
Definition swellC : Swell.t := Swell.mk one (of_Z 3) zero "N".

(** Buoy observations at given instants, and buoys holding them. *)
Definition observedAt (date : GoTime.Time) : BuoyItem.t :=
  BuoyItem.set_Date date BuoyItem.zeroValue.

Definition buoyWith (data : slice BuoyItem.t) : Buoy.t :=
  Buoy.mk None ("", "") "44097" "" "" "" "y" "" "" "" data.

(** A latest report: four header lines, the time, then the readings. *)
Definition latestReport : string :=
  String.concat (String newline "")
    ["Station 44097"; "40.969 N 71.127 W"; ""; "header"; "1250 EST 01/02/15";
     "Seas: 3 ft"; "Peak Period: 8 sec"; "Swell: 2 ft"; "Period: 9 sec";
     "Direction: SSE"; "Wind Wave: 1 ft"; "Period: 4 sec"; "Direction: W"].

(** An observation whose swell fields are filled: a swell of 5 from the
    north-east, a wind swell of 7 from the east. *)
Definition olderObservation : BuoyItem.t :=
  BuoyItem.set_SwellWaveHeight (of_Z 5)
    (BuoyItem.set_SwellWaveDirection "NE"
       (BuoyItem.set_WindSwellWaveHeight (of_Z 7)
          (BuoyItem.set_WindSwellDirection "E" BuoyItem.zeroValue))).

End Samples.


(** ** location.go *)

(** [x - y] on float64. *)
Definition sub64 (x y : float64) : float64 := SFsub prec emax x y.

(** [math.Sqrt] and [math.Pow] of Go's standard library. *)
Class MathCollaborators : Type := {
  math_Sqrt : float64 -> float64;
  math_Pow : float64 -> float64 -> float64
}.

(** [AdjustedLongitude], lines 16-22. *)
Definition AdjustedLongitude (l : Location.t) : float64 :=
  if gt (Location.Longitude l) (of_Z 180)
  then sub64 (Location.Longitude l) (of_Z 360)
  else Location.Longitude l.

(** [AdjustedLatitude], lines 25-31. *)
Definition AdjustedLatitude (l : Location.t) : float64 :=
  if gt (Location.Latitude l) (of_Z 85)
  then sub64 (Location.Latitude l) (of_Z 360)
  else Location.Latitude l.

(** [ComponentDistanceTo], lines 34-38: [(latDist, lonDist)]. *)
Definition ComponentDistanceTo (l otherLoc : Location.t) : float64 * float64 :=
  (abs (sub64 (Location.Latitude l) (Location.Latitude otherLoc)),
   abs (sub64 (Location.Longitude l) (Location.Longitude otherLoc))).

(** [DistanceTo], lines 41-44. *)
Definition DistanceTo `{MathCollaborators} (l otherLoc : Location.t) : float64 :=
  let '(latDist, lonDist) := ComponentDistanceTo l otherLoc in
  math_Sqrt (add (math_Pow latDist (of_Z 2)) (math_Pow lonDist (of_Z 2))).

(** [NewLocationForLatLong], lines 50-52. *)
Definition NewLocationForLatLong (lat lon : float64) : Location.t :=
  Location.mk lat lon zero "".

(** ** Vocabulary for the latest report *)

(** How often the character [c] occurs in [s]. *)
Fixpoint occurrences (c : ascii) (s : string) : nat :=
  match s with
  | EmptyString => 0
  | String c' rest =>
      if Ascii.eqb c' c then S (occurrences c rest) else occurrences c rest
  end.

(** The value that line 139 of buoy.go takes from what follows the
    colon of a line: the first piece up to a further colon, trimmed, up
    to its first space. *)
Definition rawValueOf `{BuoyCollaborators} (afterColon : string) : string :=
  nth 0 (strings_Split
           (strings_TrimSpace (nth 0 (strings_Split afterColon ":") "")) " ") "".

(** Fields that a line of the latest report never assigns. *)
Definition sameUnreadFields (a b : BuoyItem.t) : Prop :=
  BuoyItem.Time a = BuoyItem.Time b /\
  BuoyItem.Date a = BuoyItem.Date b /\
  BuoyItem.WindDirection a = BuoyItem.WindDirection b /\
  BuoyItem.WindSpeed a = BuoyItem.WindSpeed b /\
  BuoyItem.WindGust a = BuoyItem.WindGust b /\
  BuoyItem.AveragePeriod a = BuoyItem.AveragePeriod b /\
  BuoyItem.DominantWaveDirection a = BuoyItem.DominantWaveDirection b /\
  BuoyItem.MeanWaveDirection a = BuoyItem.MeanWaveDirection b /\
  BuoyItem.Steepness a = BuoyItem.Steepness b /\
  BuoyItem.Visibility a = BuoyItem.Visibility b /\
  BuoyItem.PressureTendency a = BuoyItem.PressureTendency b /\
  BuoyItem.WaterLevel a = BuoyItem.WaterLevel b.

(** ** buoy.go: the addresses of a buoy's reports *)

(** [fmt.Sprintf] for a format whose only verb is [%s] and for string
    arguments: each [%s] is replaced by the next argument, and by
    [%!s(MISSING)] when the arguments have run out. (The calls below
    pass as many arguments as the format has verbs.) *)
Fixpoint fmt_Sprintf (format : string) (args : list string) : string :=
  match format with
  | String "%" (String "s" rest) =>
      match args with
      | arg :: args' => arg ++ fmt_Sprintf rest args'
      | [] => "%!s(MISSING)" ++ fmt_Sprintf rest []
      end
  | String c rest => String c (fmt_Sprintf rest args)
  | EmptyString => ""
  end.

(** Lines 16-23. *)
Definition baseDataURL : string := "http://www.ndbc.noaa.gov/data/realtime2/%s%s".
Definition baseSpectraPlotURL : string := "http://www.ndbc.noaa.gov/spec_plot.php?station=%s".
Definition baseLatestReadingURL : string := "http://www.ndbc.noaa.gov/data/latest_obs/%s.txt".
Definition standardDataPostfix : string := ".txt".
Definition detailedWaveDataPostfix : string := ".spec".
Definition standardDateLayout : string := "1504 MST 01/02/2006".

(** Lines 95-115. *)
Definition CreateLatestReadingURL (b : Buoy.t) : string :=
  fmt_Sprintf baseLatestReadingURL [Buoy.StationID b].
Definition CreateStandardDataURL (b : Buoy.t) : string :=
  fmt_Sprintf baseDataURL [Buoy.StationID b; standardDataPostfix].
Definition CreateDetailedWaveDataURL (b : Buoy.t) : string :=
  fmt_Sprintf baseDataURL [Buoy.StationID b; detailedWaveDataPostfix].
Definition CreateSpectraPlotURL (b : Buoy.t) : string :=
  fmt_Sprintf baseSpectraPlotURL [Buoy.StationID b].

(** ** buoy.go: the standard and the detailed report *)

(** What can end a call of the two parsers early: a run-time panic of an
    indexing, or the panic of [make] on a negative length. *)
Inductive crash : Type :=
| RuntimePanic (p : panic)
| MakeSliceLenOutOfRange.

Inductive run (A : Type) : Type :=
| Done (a : A)
| Crashed (c : crash).

Arguments Done {A} a.
Arguments Crashed {A} c.

#[global] Instance run_bind : MBind run := fun A B k m =>
  match m with
  | Done a => k a
  | Crashed c => Crashed c
  end.

#[global] Instance run_ret : MRet run := fun A a => Done a.

(** [s[i]] *)
Definition at_ {A : Type} (s : slice A) (i : nat) : run A :=
  match index s i with
  | Returned a => Done a
  | Panicked p => Crashed (RuntimePanic p)
  end.

(** [make([]A, n)] for an [int] [n]: panics when [n] is negative. *)
Definition makeInt {A : Type} (zeroValue : A) (n : Z) : run (slice A) :=
  if (n <? 0)%Z then Crashed MakeSliceLenOutOfRange
  else Done (make zeroValue (Z.to_nat n)).

(** [append(s, a)] *)
Definition append {A : Type} (s : slice A) (a : A) : slice A :=
  match s with
  | None => Some [a]
  | Some l => Some (l ++ [a])%list
  end.

(** The two merges that the parsers call on an observation that holds
    data of the other report already; buoyitem.go as embedded here does
    not have them. *)
Class MergeCollaborators : Type := {
  (** [(b *BuoyItem) MergeStandardDataReading(newBuoyData)] *)
  MergeStandardDataReading : BuoyItem.t -> BuoyItem.t -> BuoyItem.t;
  (** [(b *BuoyItem) MergeDetailedWaveDataReading(newBuoyData)] *)
  MergeDetailedWaveDataReading : BuoyItem.t -> BuoyItem.t -> BuoyItem.t
}.

Definition headerLines : Z := 2.

(** [ParseRawStandardData] (lines 192-243) and
    [ParseRawDetailedWaveData] (lines 245-293) are the same code but for
    four things: the number of fields of a line, the fields read into
    the new observation, the test that chooses between merging into and
    replacing the observation at the index, and the merge called. *)
Section RawData.
Variable dataLineLength : nat.
Variable readLine : slice string -> nat -> run BuoyItem.t.
Variable mergeWanted : BuoyItem.t -> bool.
Variable mergeReading : BuoyItem.t -> BuoyItem.t -> BuoyItem.t.

(** Lines 231-237 and 281-287: the new observation goes to the index
    [itemIndex] of the series. *)
Definition storeReading (data : slice BuoyItem.t) (itemIndex : nat)
    (newBuoyData : BuoyItem.t) : run (slice BuoyItem.t) :=
  if (len data <=? itemIndex)%nat then mret (append data newBuoyData)
  else
    existing ← at_ data itemIndex;
    if mergeWanted existing
    then mret (assign data itemIndex (mergeReading existing newBuoyData))
    else mret (assign data itemIndex newBuoyData).

(** The loop of lines 206-240 and 259-290, from the line [line] and the
    index [itemIndex] on, with [n] iterations left. *)
Fixpoint parseLines (rawData : slice string) (data : slice BuoyItem.t)
    (line itemIndex n : nat) : run (slice BuoyItem.t) :=
  match n with
  | O => mret data
  | S n' =>
      let lineBeginIndex := (line * dataLineLength)%nat in
      if (len rawData <? lineBeginIndex)%nat then mret data
      else
        newBuoyData ← readLine rawData lineBeginIndex;
        data ← storeReading data itemIndex newBuoyData;
        parseLines rawData data (S line) (S itemIndex) n'
  end.

(** Lines 195-198 and 248-251. *)
Definition dataLineCountOf (rawData : slice string) (dataCountLimit : Z) : Z :=
  let dataLineCount :=
    Z.quot (Z.of_nat (len rawData)) (Z.of_nat dataLineLength) - headerLines in
  if ((dataCountLimit <? dataLineCount)%Z && (0 <=? dataCountLimit)%Z)%bool
  then dataCountLimit else dataLineCount.

(** The whole function: the buoy after the call and the error returned,
    which is always nil. *)
Definition parseRawData (b : Buoy.t) (rawData : slice string)
    (dataCountLimit : Z) : run (Buoy.t * option string) :=
  let dataLineCount := dataLineCountOf rawData dataCountLimit in
  data ←
    (if isNil (Buoy.BuoyData b) then makeInt BuoyItem.zeroValue dataLineCount
     else if (len (Buoy.BuoyData b) =? 0)%nat
          then makeInt BuoyItem.zeroValue dataLineCount
          else mret (Buoy.BuoyData b));
  data ←
    parseLines rawData data (Z.to_nat headerLines) 0
      (Z.to_nat (dataLineCount - headerLines));
  mret (Buoy.set_BuoyData data b, None).

(** The observation read from the line [line], the zero observation if
    reading it crashes. *)
Definition readingAt (rawData : slice string) (line : nat) : BuoyItem.t :=
  match readLine rawData (line * dataLineLength) with
  | Done item => item
  | Crashed _ => BuoyItem.zeroValue
  end.

(** What lines 231-237 and 281-287 leave at an index that held
    [existing] before, or nothing. *)
Definition stored (existing : option BuoyItem.t) (newBuoyData : BuoyItem.t)
    : BuoyItem.t :=
  match existing with
  | Some item => if mergeWanted item then mergeReading item newBuoyData else newBuoyData
  | None => newBuoyData
  end.

(** The series after the loop has run [n] times over [data]: the first
    [n] observations are merged with or replaced by the readings of the
    lines from [headerLines] on, the others stay. *)
Definition updatedSeries (rawData : slice string) (n : nat)
    (data : list BuoyItem.t) : list BuoyItem.t :=
  ((fun k => stored (data !! k) (readingAt rawData (2 + k))) <$> seq 0 n)
  ++ drop n data.

End RawData.

Section Reports.
Context `{BuoyCollaborators} `{MergeCollaborators}.

(** Lines 212-229: the observation read from the line of the standard
    report that begins at [lineBeginIndex]. *)
Definition readStandardLine (rawData : slice string) (lineBeginIndex : nat)
    : run BuoyItem.t :=
  hour ← at_ rawData (lineBeginIndex + 3);
  minute ← at_ rawData (lineBeginIndex + 4);
  month ← at_ rawData (lineBeginIndex + 1);
  day ← at_ rawData (lineBeginIndex + 2);
  year ← at_ rawData (lineBeginIndex + 0);
  let rawDate := fmt_Sprintf "%s%s GMT %s/%s/%s" [hour; minute; month; day; year] in
  windDirection ← at_ rawData (lineBeginIndex + 5);
  windSpeed ← at_ rawData (lineBeginIndex + 6);
  windGust ← at_ rawData (lineBeginIndex + 7);
  significantWaveHeight ← at_ rawData (lineBeginIndex + 8);
  dominantWavePeriod ← at_ rawData (lineBeginIndex + 9);
  averagePeriod ← at_ rawData (lineBeginIndex + 10);
  meanWaveDirection ← at_ rawData (lineBeginIndex + 11);
  pressure ← at_ rawData (lineBeginIndex + 12);
  airTemperature ← at_ rawData (lineBeginIndex + 13);
  waterTemperature ← at_ rawData (lineBeginIndex + 14);
  dewpointTemperature ← at_ rawData (lineBeginIndex + 15);
  visibility ← at_ rawData (lineBeginIndex + 16);
  pressureTendency ← at_ rawData (lineBeginIndex + 17);
  waterLevel ← at_ rawData (lineBeginIndex + 18);
  mret
    {| BuoyItem.Time := "";
       BuoyItem.Date := time_Parse standardDateLayout rawDate;
       BuoyItem.WindDirection := strconv_ParseFloat windDirection;
       BuoyItem.WindSpeed := strconv_ParseFloat windSpeed;
       BuoyItem.WindGust := strconv_ParseFloat windGust;
       BuoyItem.SignificantWaveHeight := strconv_ParseFloat significantWaveHeight;
       BuoyItem.DominantWavePeriod := strconv_ParseFloat dominantWavePeriod;
       BuoyItem.AveragePeriod := strconv_ParseFloat averagePeriod;
       BuoyItem.DominantWaveDirection := zero;
       BuoyItem.MeanWaveDirection := strconv_ParseFloat meanWaveDirection;
       BuoyItem.SwellWaveHeight := zero;
       BuoyItem.SwellWavePeriod := zero;
       BuoyItem.SwellWaveDirection := "";
       BuoyItem.WindSwellWaveHeight := zero;
       BuoyItem.WindSwellWavePeriod := zero;
       BuoyItem.WindSwellDirection := "";
       BuoyItem.Steepness := "";
       BuoyItem.Pressure := strconv_ParseFloat pressure;
       BuoyItem.AirTemperature := strconv_ParseFloat airTemperature;
       BuoyItem.WaterTemperature := strconv_ParseFloat waterTemperature;
       BuoyItem.DewpointTemperature := strconv_ParseFloat dewpointTemperature;
       BuoyItem.Visibility := strconv_ParseFloat visibility;
       BuoyItem.PressureTendency := strconv_ParseFloat pressureTendency;
       BuoyItem.WaterLevel := strconv_ParseFloat waterLevel |}.

(** Lines 266-279: the observation read from the line of the detailed
    report that begins at [lineBeginIndex]. *)
Definition readDetailedLine (rawData : slice string) (lineBeginIndex : nat)
    : run BuoyItem.t :=
  hour ← at_ rawData (lineBeginIndex + 3);
  minute ← at_ rawData (lineBeginIndex + 4);
  month ← at_ rawData (lineBeginIndex + 1);
  day ← at_ rawData (lineBeginIndex + 2);
  year ← at_ rawData (lineBeginIndex + 0);
  let rawDate := fmt_Sprintf "%s%s GMT %s/%s/%s" [hour; minute; month; day; year] in
  significantWaveHeight ← at_ rawData (lineBeginIndex + 5);
  swellWaveHeight ← at_ rawData (lineBeginIndex + 6);
  swellWavePeriod ← at_ rawData (lineBeginIndex + 7);
  windSwellWaveHeight ← at_ rawData (lineBeginIndex + 8);
  windSwellWavePeriod ← at_ rawData (lineBeginIndex + 9);
  swellWaveDirection ← at_ rawData (lineBeginIndex + 10);
  windSwellDirection ← at_ rawData (lineBeginIndex + 11);
  steepness ← at_ rawData (lineBeginIndex + 12);
  averagePeriod ← at_ rawData (lineBeginIndex + 13);
  meanWaveDirection ← at_ rawData (lineBeginIndex + 14);
  mret
    (InterpolateDominantWaveDirection
       {| BuoyItem.Time := "";
          BuoyItem.Date := time_Parse standardDateLayout rawDate;
          BuoyItem.WindDirection := zero;
          BuoyItem.WindSpeed := zero;
          BuoyItem.WindGust := zero;
          BuoyItem.SignificantWaveHeight := strconv_ParseFloat significantWaveHeight;
          BuoyItem.DominantWavePeriod := zero;
          BuoyItem.AveragePeriod := strconv_ParseFloat averagePeriod;
          BuoyItem.DominantWaveDirection := zero;
          BuoyItem.MeanWaveDirection := strconv_ParseFloat meanWaveDirection;
          BuoyItem.SwellWaveHeight := strconv_ParseFloat swellWaveHeight;
          BuoyItem.SwellWavePeriod := strconv_ParseFloat swellWavePeriod;
          BuoyItem.SwellWaveDirection := swellWaveDirection;
          BuoyItem.WindSwellWaveHeight := strconv_ParseFloat windSwellWaveHeight;
          BuoyItem.WindSwellWavePeriod := strconv_ParseFloat windSwellWavePeriod;
          BuoyItem.WindSwellDirection := windSwellDirection;
          BuoyItem.Steepness := steepness;
          BuoyItem.Pressure := zero;
          BuoyItem.AirTemperature := zero;
          BuoyItem.WaterTemperature := zero;
          BuoyItem.DewpointTemperature := zero;
          BuoyItem.Visibility := zero;
          BuoyItem.PressureTendency := zero;
          BuoyItem.WaterLevel := zero |}).

(** [ParseRawStandardData], lines 192-243: a line has 19 fields, and an
    observation whose [Steepness] is not empty is merged into. *)
Definition ParseRawStandardData (b : Buoy.t) (rawData : slice string)
    (dataCountLimit : Z) : run (Buoy.t * option string) :=
  parseRawData 19 readStandardLine
    (fun existing => (0 <? String.length (BuoyItem.Steepness existing))%nat)
    MergeStandardDataReading b rawData dataCountLimit.

(** [ParseRawDetailedWaveData], lines 245-293: a line has 15 fields, and
    an observation whose [DominantWavePeriod] is above 0 is merged into. *)
Definition ParseRawDetailedWaveData (b : Buoy.t) (rawData : slice string)
    (dataCountLimit : Z) : run (Buoy.t * option string) :=
  parseRawData 15 readDetailedLine
    (fun existing => gt (BuoyItem.DominantWavePeriod existing) zero)
    MergeDetailedWaveDataReading b rawData dataCountLimit.

End Reports.

(** ** wavewatch: the East Coast model *)

Module WaveWatch.

(** The [Location] of package wavewatch, as its literals build it: a
    latitude and a longitude. *)
Record Location : Type := mkLocation {
  Latitude : float64;
  Longitude : float64
}.

(** The decimal literal [n / 10^k] as a float64: the quotient of two
    integers that are float64 values, rounded once. *)
Definition decimal (n : Z) (k : nat) : float64 :=
  div (of_Z n) (of_Z (10 ^ Z.of_nat k)).

(** [BottomLeftCoord]: [Location{0.00, 260.00}]. *)
Definition BottomLeftCoord : Location := mkLocation zero (of_Z 260).
(** [TopRightCoord]: [Location{55.00011, 310.00011}]. *)
Definition TopRightCoord : Location :=
  mkLocation (decimal 5500011 5) (decimal 31000011 5).
(** [LocationResolution]: 0.167; [TimeResolution]: 0.125. *)
Definition LocationResolution : float64 := decimal 167 3.
Definition TimeResolution : float64 := decimal 125 3.

(** [ContainsLocation] *)
Definition ContainsLocation (loc : Location) : bool :=
  if gt (Latitude loc) (Latitude BottomLeftCoord)
     && lt (Latitude loc) (Latitude TopRightCoord)
  then
    if gt (Longitude loc) (Longitude BottomLeftCoord)
       && lt (Longitude loc) (Longitude TopRightCoord)
    then true else false
  else false.

End WaveWatch.

(** ** More sample data *)

Module MoreSamples.

(** One line of a standard report, the fields numbered from [first] on
    so that lines differ, and a report of [n] such lines. *)
Definition numberedFields (first count : nat) : list string :=
  map (fun k => DecimalString.NilEmpty.string_of_uint (Nat.to_uint k)) (seq first count).

Definition standardReport (lines : nat) : slice string :=
  Some (numberedFields 0 (lines * 19)).

Definition detailedReport (lines : nat) : slice string :=
  Some (numberedFields 0 (lines * 15)).

Definition mergeCollaborators : MergeCollaborators :=
  {| MergeStandardDataReading := fun b _ => b;
     MergeDetailedWaveDataReading := fun b _ => b |}.

End MoreSamples.


(** * Properties *)

Open Scope list_scope.

(** ** Order facts about binary64 comparison *)

Ltac cmp_cases :=
  repeat match goal with
  | |- context [Pos.compare_cont Eq ?a ?b] =>
      change (Pos.compare_cont Eq a b) with (Pos.compare a b)
  | H : context [Pos.compare_cont Eq ?a ?b] |- _ =>
      change (Pos.compare_cont Eq a b) with (Pos.compare a b) in H
  end;
  repeat match goal with
  | H : context [Z.compare ?a ?b] |- _ => destruct (Z.compare_spec a b)
  | |- context [Z.compare ?a ?b] => destruct (Z.compare_spec a b)
  | H : context [Pos.compare ?a ?b] |- _ => destruct (Pos.compare_spec a b)
  | |- context [Pos.compare ?a ?b] => destruct (Pos.compare_spec a b)
  end.

Ltac float_cases :=
  simpl; try discriminate; try reflexivity; intros;
  cmp_cases; simpl in *; subst; try discriminate; try reflexivity; try lia.

Lemma lt_trans (x y z : float64) :
  lt x y = true -> lt y z = true -> lt x z = true.
Proof.
  unfold lt, SFltb, SFcompare.
  destruct x as [[]|[]| |[] mx ex], y as [[]|[]| |[] my ey],
           z as [[]|[]| |[] mz ez]; float_cases.
Qed.

Lemma lt_asym (x y : float64) : lt x y = true -> lt y x = false.
Proof.
  unfold lt, SFltb, SFcompare.
  destruct x as [[]|[]| |[] mx ex], y as [[]|[]| |[] my ey]; float_cases.
Qed.

(** Without a NaN in the middle, "not below" is transitive. *)
Lemma lt_negtrans (x y z : float64) :
  isNaN y = false -> lt x y = false -> lt y z = false -> lt x z = false.
Proof.
  unfold lt, SFltb, SFcompare.
  destruct x as [[]|[]| |[] mx ex], y as [[]|[]| |[] my ey],
           z as [[]|[]| |[] mz ez]; float_cases.
Qed.

Lemma eq_not_lt (x y : float64) :
  eq x y = true -> lt x y = false /\ lt y x = false.
Proof.
  unfold eq, lt, SFeqb, SFltb, SFcompare.
  destruct x as [[]|[]| |[] mx ex], y as [[]|[]| |[] my ey]; float_cases;
    split; float_cases.
Qed.

(** ** The synthesis loop *)

Section SynthesisFacts.
Context `{SurfCollaborators}.

Lemma index_Some {A : Type} (l : list A) (i : nat) (a : A) :
  l !! i = Some a -> index (Some l) i = Returned a.
Proof. intros E. unfold index. rewrite E. reflexivity. Qed.

Lemma index_None {A : Type} (l : list A) (i : nat) :
  l !! i = None -> index (Some l) i = Panicked (IndexOutOfRange i (length l)).
Proof. intros E. unfold index. rewrite E. reflexivity. Qed.

(** When every iteration returns, the loop stores the items in order. *)
Lemma forecastLoop_returned sf wave wind nw (f : nat -> SurfForecastItem.t) n :
  forall i data,
    length data = (i + n)%nat ->
    (forall j, (i <= j < i + n)%nat ->
       forecastItemAt sf wave wind nw j = Returned (f j)) ->
    forecastLoop sf wave wind nw (Some data) i n
    = Returned (Some (take i data ++ (f <$> seq i n))).
Proof.
  induction n as [|n IH]; intros i data Hlen Hf; simpl.
  - rewrite app_nil_r, take_ge by lia. reflexivity.
  - rewrite (Hf i) by lia. simpl.
    rewrite IH.
    + do 2 f_equal.
      rewrite (take_S_r _ _ (f i)).
      * rewrite take_insert_ge by lia. rewrite <- app_assoc. reflexivity.
      * apply list_lookup_insert_eq. lia.
    + rewrite length_insert. lia.
    + intros j Hj. apply Hf. lia.
Qed.

(** The first iteration that panics ends the loop with its panic. *)
Lemma forecastLoop_panicked sf wave wind nw k p n :
  forall i data,
    (i <= k < i + n)%nat ->
    (forall j, (i <= j < k)%nat ->
       exists item, forecastItemAt sf wave wind nw j = Returned item) ->
    forecastItemAt sf wave wind nw k = Panicked p ->
    forecastLoop sf wave wind nw data i n = Panicked p.
Proof.
  induction n as [|n IH]; intros i data Hk Hbefore Hpanic; simpl.
  - lia.
  - destruct (decide (i = k)) as [->|Hne].
    + rewrite Hpanic. reflexivity.
    + destruct (Hbefore i) as [item Hitem]; [lia|].
      rewrite Hitem. simpl. apply IH; [lia| |assumption].
      intros j Hj. apply Hbefore. lia.
Qed.


(** A loop that returns has returned from every iteration. *)
Lemma forecastLoop_inv sf wave wind nw n :
  forall i data r,
    forecastLoop sf wave wind nw data i n = Returned r ->
    forall j, (i <= j < i + n)%nat ->
      forecastItemAt sf wave wind nw j = Returned (itemOrZero sf wave wind nw j).
Proof.
  induction n as [|n IH]; intros i data r Hloop j Hj; [lia|].
  simpl in Hloop.
  destruct (forecastItemAt sf wave wind nw i) as [item|p] eqn:Hitem;
    [|discriminate].
  destruct (decide (j = i)) as [->|Hne].
  - unfold itemOrZero. rewrite Hitem. reflexivity.
  - simpl in Hloop. apply (IH _ _ _ Hloop). lia.
Qed.

(** What an iteration that returns has computed. *)
Lemma forecastItemAt_inv sf wave wind nw j item :
  forecastItemAt sf wave wind nw j = Returned item ->
  exists ws w,
    WaveForecast.ForecastData wave = Some ws /\ ws !! j = Some w /\
    ((nw = true /\
      item = withRankedSwells sf w (windFromWave w (datedItem w))) \/
     (nw = false /\ exists vs v,
        WindForecast.ForecastData wind = Some vs /\ vs !! j = Some v /\
        item = withRankedSwells sf w (windFromModel v (datedItem w)))).
Proof.
  unfold forecastItemAt, index.
  destruct (WaveForecast.ForecastData wave) as [ws|]; [|discriminate].
  destruct (ws !! j) as [w|] eqn:Hw; [|discriminate].
  simpl. destruct nw; simpl.
  - intros [= <-]. exists ws, w. auto.
  - destruct (WindForecast.ForecastData wind) as [vs|]; [|discriminate].
    destruct (vs !! j) as [v|] eqn:Hv; [|discriminate].
    simpl. intros [= <-]. exists ws, w. split; [reflexivity|].
    split; [assumption|]. right. split; [reflexivity|].
    exists vs, v. auto.
Qed.

Lemma forecastItemAt_fallback sf wave wind ws j w :
  WaveForecast.ForecastData wave = Some ws -> ws !! j = Some w ->
  forecastItemAt sf wave wind true j
  = Returned (withRankedSwells sf w (windFromWave w (datedItem w))).
Proof.
  intros Hws Hw. unfold forecastItemAt. rewrite Hws, (index_Some _ _ _ Hw).
  reflexivity.
Qed.

Lemma forecastItemAt_model sf wave wind ws vs j w v :
  WaveForecast.ForecastData wave = Some ws -> ws !! j = Some w ->
  WindForecast.ForecastData wind = Some vs -> vs !! j = Some v ->
  forecastItemAt sf wave wind false j
  = Returned (withRankedSwells sf w (windFromModel v (datedItem w))).
Proof.
  intros Hws Hw Hvs Hv. unfold forecastItemAt.
  rewrite Hws, (index_Some _ _ _ Hw). simpl.
  rewrite Hvs, (index_Some _ _ _ Hv). reflexivity.
Qed.

Lemma forecastItemAt_short sf wave wind ws vs j w :
  WaveForecast.ForecastData wave = Some ws -> ws !! j = Some w ->
  WindForecast.ForecastData wind = Some vs -> vs !! j = None ->
  forecastItemAt sf wave wind false j
  = Panicked (IndexOutOfRange j (length vs)).
Proof.
  intros Hws Hw Hvs Hv. unfold forecastItemAt.
  rewrite Hws, (index_Some _ _ _ Hw). simpl.
  rewrite Hvs, (index_None _ _ Hv). reflexivity.
Qed.

(** [noWindDataOf] says whether the wind series is nil or empty. *)
Lemma noWindDataOf_true wind :
  noWindDataOf wind = true <-> len (WindForecast.ForecastData wind) = 0%nat.
Proof.
  unfold noWindDataOf, isNil, len.
  destruct (WindForecast.ForecastData wind) as [[|v vs]|]; simpl;
    split; intros; try reflexivity; try discriminate.
Qed.

(** [synthesize] returns nil exactly on a nil or empty wave series, in
    so far as it returns. *)
Lemma synthesize_nil loc beachAngle beachSlope wave wind :
  synthesize loc beachAngle beachSlope wave wind = Returned None <->
  len (WaveForecast.ForecastData wave) = 0%nat.
Proof.
  unfold synthesize.
  destruct (WaveForecast.ForecastData wave) as [[|w ws]|];
    cbn [isNil len length]; [split; reflexivity| |split; reflexivity].
  change ((S (length ws) <? 1)%nat) with false. cbv iota.
  split; [|discriminate].
  destruct (forecastLoop _ _ _ _ _ _ _); discriminate.
Qed.

(** A forecast that [synthesize] returns holds one item for each wave
    record, each computed by the loop body from the record at its index. *)
Lemma synthesize_returned loc beachAngle beachSlope wave wind sf :
  synthesize loc beachAngle beachSlope wave wind = Returned (Some sf) ->
  let sf0 := emptySurfForecast loc beachAngle beachSlope wave wind in
  let nw := noWindDataOf wind in
  exists ws,
    WaveForecast.ForecastData wave = Some ws /\ ws <> [] /\
    sf = withForecastData sf0
           (Some (itemOrZero sf0 wave wind nw <$> seq 0 (length ws))) /\
    forall j, (j < length ws)%nat ->
      forecastItemAt sf0 wave wind nw j
      = Returned (itemOrZero sf0 wave wind nw j).
Proof.
  intros Hr sf0 nw. unfold synthesize in Hr. fold sf0 nw in Hr.
  destruct (WaveForecast.ForecastData wave) as [ws|] eqn:Hws;
    [|discriminate].
  destruct ws as [|w0 ws']; [discriminate|].
  set (ws := w0 :: ws') in *.
  cbn [isNil len] in Hr.
  change ((length ws <? 1)%nat) with false in Hr. cbv iota in Hr.
  destruct (forecastLoop sf0 (wave) wind nw
              (SurfForecast.ForecastData sf0) 0 (length ws))
    as [data|p] eqn:Hloop; [|discriminate].
  pose proof (forecastLoop_inv _ _ _ _ _ _ _ _ Hloop) as Hall.
  assert (Hdata : SurfForecast.ForecastData sf0
                  = Some (replicate (length ws) SurfForecastItem.zeroValue)).
  { unfold sf0, emptySurfForecast, make. simpl. rewrite Hws. reflexivity. }
  rewrite Hdata in Hloop.
  rewrite (forecastLoop_returned _ _ _ _ (itemOrZero sf0 wave wind nw)) in Hloop.
  - injection Hloop as <-. simpl in Hr. injection Hr as <-.
    exists ws. split; [reflexivity|]. split; [discriminate|].
    split; [reflexivity|]. intros j Hj. apply Hall. lia.
  - rewrite length_replicate. lia.
  - intros j Hj. apply Hall. lia.
Qed.


(** When every iteration returns, [synthesize] returns the forecast
    that holds the items in order. *)
Lemma synthesize_all_returned loc beachAngle beachSlope wave wind ws f :
  let sf0 := emptySurfForecast loc beachAngle beachSlope wave wind in
  WaveForecast.ForecastData wave = Some ws -> ws <> [] ->
  (forall j, (j < length ws)%nat ->
     forecastItemAt sf0 wave wind (noWindDataOf wind) j = Returned (f j)) ->
  synthesize loc beachAngle beachSlope wave wind
  = Returned (Some (withForecastData sf0 (Some (f <$> seq 0 (length ws))))).
Proof.
  intros sf0 Hws Hne Hall. unfold synthesize. fold sf0.
  assert (Hdata : SurfForecast.ForecastData sf0
                  = Some (replicate (length ws) SurfForecastItem.zeroValue)).
  { unfold sf0, emptySurfForecast, make. simpl. rewrite Hws. reflexivity. }
  rewrite Hdata, Hws. cbn [isNil len].
  destruct ws as [|w0 ws']; [congruence|].
  set (ws := w0 :: ws') in *.
  change ((length ws <? 1)%nat) with false. cbv iota.
  rewrite (forecastLoop_returned _ _ _ _ f).
  - reflexivity.
  - rewrite length_replicate. lia.
  - intros j Hj. apply Hall. lia.
Qed.

(** A wind series that is not empty and shorter than the wave series:
    the loop panics at the first index past the wind series. *)
Lemma synthesize_short_wind loc beachAngle beachSlope wave wind ws vs :
  WaveForecast.ForecastData wave = Some ws ->
  WindForecast.ForecastData wind = Some vs ->
  (0 < length vs < length ws)%nat ->
  synthesize loc beachAngle beachSlope wave wind
  = Panicked (IndexOutOfRange (length vs) (length vs)).
Proof.
  intros Hws Hvs Hlen. unfold synthesize.
  assert (Hnw : noWindDataOf wind = false).
  { unfold noWindDataOf. rewrite Hvs. simpl.
    destruct vs; [simpl in Hlen; lia|reflexivity]. }
  rewrite Hnw, Hws. cbn [isNil len].
  destruct ws as [|w0 ws']; [simpl in Hlen; lia|].
  set (ws := w0 :: ws') in *.
  change ((length ws <? 1)%nat) with false. cbv iota.
  rewrite (forecastLoop_panicked _ _ _ _ (length vs)
             (IndexOutOfRange (length vs) (length vs))).
  - reflexivity.
  - lia.
  - intros j Hj.
    destruct (lookup_lt_is_Some_2 ws j) as [w Hw]; [lia|].
    destruct (lookup_lt_is_Some_2 vs j) as [v Hv]; [lia|].
    eexists. eapply forecastItemAt_model; eassumption.
  - destruct (lookup_lt_is_Some_2 ws (length vs)) as [w Hw]; [lia|].
    eapply forecastItemAt_short; try eassumption.
    apply lookup_ge_None_2. lia.
Qed.

(** The ranking leaves the wind fields of the item alone. *)
Lemma withRankedSwells_wind sf w item :
  let ranked := withRankedSwells sf w item in
  SurfForecastItem.WindSpeed ranked = SurfForecastItem.WindSpeed item /\
  SurfForecastItem.WindGustSpeed ranked = SurfForecastItem.WindGustSpeed item /\
  SurfForecastItem.WindDirection ranked = SurfForecastItem.WindDirection item.
Proof.
  unfold withRankedSwells, rankSwells. cbv zeta.
  repeat match goal with |- context [gt ?a ?b] => destruct (gt a b) end;
    simpl; auto.
Qed.

End SynthesisFacts.


(** ** Ranking of the swells (lines 130-169) *)

Lemma lt_not_NaN (x y : float64) :
  lt x y = true -> isNaN x = false /\ isNaN y = false.
Proof.
  unfold lt, SFltb, SFcompare.
  destruct x as [[]|[]| |[] mx ex], y as [[]|[]| |[] my ey];
    simpl; try discriminate; auto.
Qed.

Section RankingFacts.
Variable item : SurfForecastItem.t.
Variables s1 s2 s3 : Swell.t.
Variables n1 m1 n2 m2 n3 m3 : float64.

Let c1 := mkCandidate 1 s1 n1 m1.
Let c2 := mkCandidate 2 s2 n2 m2.
Let c3 := mkCandidate 3 s3 n3 m3.
Let ranked := rankSwells item s1 n1 m1 s2 n2 m2 s3 n3 m3.

Ltac ranked_as := unfold rankedAs; simpl; repeat split; reflexivity.

Ltac is_ahead :=
  unfold ahead; simpl; split;
  [ first [ assumption | apply lt_asym; assumption ]
  | first [ left; assumption | right; lia ] ].

(** The ranking is by maximum breaking height, descending, and of equal
    maxima the one declared later stands first. *)
Lemma rankSwells_ranked :
  exists p s t,
    [p; s; t] ≡ₚ [c1; c2; c3] /\ rankedAs ranked p s t /\
    ahead p s /\ ahead s t /\ (isNaN m2 = false -> ahead p t).
Proof.
  unfold ranked, rankSwells, gt.
  destruct (lt m2 m1) eqn:H21; [destruct (lt m3 m1) eqn:H31|];
    destruct (lt m3 m2) eqn:H32;
    try destruct (lt m3 m1) eqn:H31.
  - exists c1, c2, c3. split; [solve_Permutation|]. split; [ranked_as|].
    split; [is_ahead|]. split; [is_ahead|]. intros _. is_ahead.
  - exists c1, c3, c2. split; [solve_Permutation|]. split; [ranked_as|].
    split; [is_ahead|]. split; [is_ahead|]. intros _. is_ahead.
  - rewrite (lt_trans _ _ _ H32 H21) in H31. discriminate.
  - exists c3, c1, c2. split; [solve_Permutation|]. split; [ranked_as|].
    split; [is_ahead|]. split; [is_ahead|]. intros _.
    unfold ahead; simpl. split; [|right; lia].
    destruct (lt_not_NaN _ _ H21) as [_ Hnan].
    apply (lt_negtrans _ m1); [assumption|assumption|].
    apply lt_asym; assumption.
  - exists c2, c1, c3. split; [solve_Permutation|]. split; [ranked_as|].
    split; [is_ahead|]. split; [is_ahead|]. intros _. is_ahead.
  - exists c2, c3, c1. split; [solve_Permutation|]. split; [ranked_as|].
    split; [is_ahead|]. split; [is_ahead|]. intros _. is_ahead.
  - exists c3, c2, c1. split; [solve_Permutation|]. split; [ranked_as|].
    split; [is_ahead|]. split; [is_ahead|]. intros Hnan.
    unfold ahead; simpl. split; [|right; lia].
    apply (lt_negtrans _ m2); assumption.
  - exists c3, c2, c1. split; [solve_Permutation|]. split; [ranked_as|].
    split; [is_ahead|]. split; [is_ahead|]. intros Hnan.
    unfold ahead; simpl. split; [|right; lia].
    apply (lt_negtrans _ m2); assumption.
Qed.

(** Three equal maxima: the swells come out in reverse of their
    declaration. *)
Lemma rankSwells_all_equal :
  eq m1 m2 = true -> eq m2 m3 = true -> rankedAs ranked c3 c2 c1.
Proof.
  intros [_ H21]%eq_not_lt [_ H32]%eq_not_lt.
  unfold ranked, rankSwells, gt. rewrite H21, H32. ranked_as.
Qed.

(** Equal maxima of the first two swells: the second stands before the
    first, wherever the third one goes. *)
Lemma rankSwells_first_two_equal :
  eq m1 m2 = true ->
  rankedAs ranked c2 c1 c3 \/ rankedAs ranked c2 c3 c1 \/ rankedAs ranked c3 c2 c1.
Proof.
  intros [_ H21]%eq_not_lt.
  unfold ranked, rankSwells, gt. rewrite H21.
  destruct (lt m3 m2); [destruct (lt m3 m1)|].
  - left. ranked_as.
  - right; left. ranked_as.
  - right; right. ranked_as.
Qed.

End RankingFacts.


(** ** Claims about the synthesis *)

Section SynthesisClaims.
Context `{SurfCollaborators}.

(** The items of a returned forecast, by index. *)
Lemma NewSurfForecast_item loc beachAngle beachSlope wave wind sf items i item :
  result (NewSurfForecast loc beachAngle beachSlope (Some wave) (Some wind))
    = Returned (Some sf) ->
  SurfForecast.ForecastData sf = Some items ->
  items !! i = Some item ->
  exists ws w,
    WaveForecast.ForecastData (waveInMetric wave) = Some ws /\
    ws !! i = Some w /\
    ((noWindDataOf (windInMetric wind) = true /\
      item = withRankedSwells sf w (windFromWave w (datedItem w))) \/
     (noWindDataOf (windInMetric wind) = false /\ exists vs v,
        WindForecast.ForecastData (windInMetric wind) = Some vs /\
        vs !! i = Some v /\
        item = withRankedSwells sf w (windFromModel v (datedItem w)))).
Proof.
  simpl. intros Hr Hitems Hi.
  destruct (synthesize_returned _ _ _ _ _ _ Hr) as (ws & Hws & _ & -> & Hall).
  simpl in Hitems. injection Hitems as <-.
  rewrite list_lookup_fmap in Hi.
  destruct (seq 0 (length ws) !! i) as [j|] eqn:Hj; [|discriminate].
  apply lookup_seq in Hj as [-> Hlt]. simpl in Hi. injection Hi as <-.
  specialize (Hall i Hlt).
  destruct (forecastItemAt_inv _ _ _ _ _ _ Hall)
    as (ws' & w & Hws' & Hw & Hcases).
  exists ws', w. split; [assumption|]. split; [assumption|].
  destruct Hcases as [[Hnw Hitem]|[Hnw (vs & v & Hvs & Hv & Hitem)]].
  - left. split; [assumption|]. rewrite Hitem. reflexivity.
  - right. split; [assumption|]. exists vs, v.
    split; [assumption|]. split; [assumption|]. rewrite Hitem. reflexivity.
Qed.

(** C1, as the code has it: at every time step of a returned forecast
    the three swells of the wave record are ranked primary, secondary,
    tertiary by maximum breaking height, descending, and of two equal
    maxima the swell declared LATER stands first (swell 3 before swell 2
    before swell 1). The order of the primary and the tertiary swell is
    the same, provided the maximum of swell 2 is not NaN. When the three
    maxima are equal, primary = swell 3, secondary = swell 2 and
    tertiary = swell 1; when the maxima of swell 1 and swell 2 are equal,
    swell 2 stands before swell 1. *)
Theorem ranking_descending_later_declared_first
    loc beachAngle beachSlope wave wind sf items i item :
  result (NewSurfForecast loc beachAngle beachSlope (Some wave) (Some wind))
    = Returned (Some sf) ->
  SurfForecast.ForecastData sf = Some items ->
  items !! i = Some item ->
  exists ws w,
    WaveForecast.ForecastData (waveInMetric wave) = Some ws /\
    ws !! i = Some w /\
    let c1 := candidateOne sf w in
    let c2 := candidateTwo sf w in
    let c3 := candidateThree sf w in
    (exists p s t,
       [p; s; t] ≡ₚ [c1; c2; c3] /\ rankedAs item p s t /\
       ahead p s /\ ahead s t /\
       (isNaN (maximum c2) = false -> ahead p t)) /\
    (eq (maximum c1) (maximum c2) = true ->
     eq (maximum c2) (maximum c3) = true ->
     rankedAs item c3 c2 c1) /\
    (eq (maximum c1) (maximum c2) = true ->
     rankedAs item c2 c1 c3 \/ rankedAs item c2 c3 c1 \/ rankedAs item c3 c2 c1).
Proof.
  intros Hr Hitems Hi.
  destruct (NewSurfForecast_item _ _ _ _ _ _ _ _ _ Hr Hitems Hi)
    as (ws & w & Hws & Hw & Hcases).
  exists ws, w. split; [assumption|]. split; [assumption|].
  assert (Hitem : exists base, item = withRankedSwells sf w base).
  { destruct Hcases as [[_ ->]|[_ (vs & v & _ & _ & ->)]]; eauto. }
  destruct Hitem as [base ->].
  unfold withRankedSwells, candidateOne, candidateTwo, candidateThree,
    candidateOf.
  cbv zeta.
  split; [apply rankSwells_ranked|].
  split; [apply rankSwells_all_equal|apply rankSwells_first_two_equal].
Qed.


(** C7: when the wind series is nil or empty, a forecast is returned for
    every wave series that is not empty, and each of its items has the
    wind speed and direction of the wave record's surface wind and the
    gust speed -1; in a returned forecast, the item at an index where the
    wind series has a record has the wind speed, gust speed and direction
    of that record; and a forecast is returned whenever the wind series
    is at least as long as the wave series. (Both series are those the
    call reads: the forecasts after the conversion to metric units.) *)
Theorem wind_fields_mirror_or_fall_back loc beachAngle beachSlope wave wind :
  let returned :=
    result (NewSurfForecast loc beachAngle beachSlope (Some wave) (Some wind)) in
  let waveData := WaveForecast.ForecastData (waveInMetric wave) in
  let windData := WindForecast.ForecastData (windInMetric wind) in
  (len windData = 0%nat ->
   forall ws, waveData = Some ws -> ws <> [] ->
     exists sf items,
       returned = Returned (Some sf) /\
       SurfForecast.ForecastData sf = Some items /\
       length items = length ws /\
       forall i w, ws !! i = Some w ->
         exists item, items !! i = Some item /\ fallsBackOn item w) /\
  (forall sf items vs i v item,
     returned = Returned (Some sf) ->
     SurfForecast.ForecastData sf = Some items ->
     windData = Some vs -> vs !! i = Some v -> items !! i = Some item ->
     mirrorsWind item v) /\
  (forall ws vs,
     waveData = Some ws -> ws <> [] -> windData = Some vs ->
     (length ws <= length vs)%nat ->
     exists sf items,
       returned = Returned (Some sf) /\
       SurfForecast.ForecastData sf = Some items /\
       length items = length ws).
Proof.
  intros returned waveData windData. subst returned waveData windData.
  cbn [NewSurfForecast result].
  set (wave' := waveInMetric wave). set (wind' := windInMetric wind).
  set (sf0 := emptySurfForecast loc beachAngle beachSlope wave' wind').
  split; [|split].
  - intros Hlen%noWindDataOf_true ws Hws Hne.
    set (f := fun j =>
           match ws !! j with
           | Some w => withRankedSwells sf0 w (windFromWave w (datedItem w))
           | None => SurfForecastItem.zeroValue
           end).
    eexists; eexists. split.
    + apply (synthesize_all_returned _ _ _ _ _ ws f); [assumption..|].
      intros j Hj. rewrite Hlen.
      destruct (lookup_lt_is_Some_2 ws j Hj) as [w Hw].
      unfold f. rewrite Hw. eapply forecastItemAt_fallback; eassumption.
    + split; [reflexivity|].
      split; [rewrite length_fmap, length_seq; reflexivity|].
      intros i w Hw. exists (f i). split.
      * rewrite list_lookup_fmap, lookup_seq_lt
          by (eapply lookup_lt_Some; eassumption).
        reflexivity.
      * unfold f. rewrite Hw. unfold fallsBackOn.
        destruct (withRankedSwells_wind sf0 w (windFromWave w (datedItem w)))
          as (-> & -> & ->).
        repeat split.
  - intros sf items vs i v item Hr Hitems Hvs Hv Hi.
    assert (Hcall : result (NewSurfForecast loc beachAngle beachSlope
                              (Some wave) (Some wind)) = Returned (Some sf))
      by exact Hr.
    destruct (NewSurfForecast_item _ _ _ _ _ _ _ _ _ Hcall Hitems Hi)
      as (ws & w & _ & _ & [[Hnw _]|[_ (vs' & v' & Hvs' & Hv' & ->)]]).
    + apply noWindDataOf_true in Hnw. fold wind' in Hnw. rewrite Hvs in Hnw.
      apply lookup_lt_Some in Hv. simpl in Hnw. lia.
    + fold wind' in Hvs'. rewrite Hvs in Hvs'. injection Hvs' as <-.
      rewrite Hv in Hv'. injection Hv' as <-.
      unfold mirrorsWind.
      destruct (withRankedSwells_wind sf w (windFromModel v (datedItem w)))
        as (-> & -> & ->).
      repeat split.
  - intros ws vs Hws Hne Hvs Hlen.
    destruct (noWindDataOf wind') eqn:Hnw.
    + set (f := fun j =>
             match ws !! j with
             | Some w => withRankedSwells sf0 w (windFromWave w (datedItem w))
             | None => SurfForecastItem.zeroValue
             end).
      eexists; eexists. split.
      * apply (synthesize_all_returned _ _ _ _ _ ws f); [assumption..|].
        intros j Hj. rewrite Hnw.
        destruct (lookup_lt_is_Some_2 ws j Hj) as [w Hw].
        unfold f. rewrite Hw. eapply forecastItemAt_fallback; eassumption.
      * split; [reflexivity|].
        rewrite length_fmap, length_seq; reflexivity.
    + set (f := fun j =>
             match ws !! j, vs !! j with
             | Some w, Some v =>
                 withRankedSwells sf0 w (windFromModel v (datedItem w))
             | _, _ => SurfForecastItem.zeroValue
             end).
      eexists; eexists. split.
      * apply (synthesize_all_returned _ _ _ _ _ ws f); [assumption..|].
        intros j Hj. rewrite Hnw.
        destruct (lookup_lt_is_Some_2 ws j Hj) as [w Hw].
        destruct (lookup_lt_is_Some_2 vs j) as [v Hv]; [lia|].
        unfold f. rewrite Hw, Hv. eapply forecastItemAt_model; eassumption.
      * split; [reflexivity|].
        rewrite length_fmap, length_seq; reflexivity.
Qed.

(** C10: a forecast that [NewSurfForecast] returns is in metric units,
    and the call leaves each input forecast converted to metric units
    by its own [ChangeUnits] when its model was in other units, and
    untouched when its model was in metric units already. *)
Theorem returned_forecast_and_inputs_in_metric
    loc beachAngle beachSlope wave wind :
  let after := NewSurfForecast loc beachAngle beachSlope (Some wave) (Some wind) in
  (forall sf, result after = Returned (Some sf) -> SurfForecast.Units sf = Metric) /\
  waveForecastAfter after
    = Some (if decide (NOAAModel.Units (WaveForecast.Model wave) = Metric)
            then wave else WaveForecast_ChangeUnits wave Metric) /\
  windForecastAfter after
    = Some (if decide (NOAAModel.Units (WindForecast.Model wind) = Metric)
            then wind else WindForecast_ChangeUnits wind Metric) /\
  result after
    = synthesize loc beachAngle beachSlope (waveInMetric wave) (windInMetric wind).
Proof.
  cbn [NewSurfForecast result waveForecastAfter windForecastAfter].
  split; [|split; [|split]].
  - intros sf Hr.
    destruct (synthesize_returned _ _ _ _ _ _ Hr) as (ws & _ & _ & -> & _).
    reflexivity.
  - unfold waveInMetric.
    destruct (decide (NOAAModel.Units (WaveForecast.Model wave) = Metric));
      destruct (decide (NOAAModel.Units (WaveForecast.Model wave) <> Metric));
      try reflexivity; contradiction.
  - unfold windInMetric.
    destruct (decide (NOAAModel.Units (WindForecast.Model wind) = Metric));
      destruct (decide (NOAAModel.Units (WindForecast.Model wind) <> Metric));
      try reflexivity; contradiction.
  - reflexivity.
Qed.

(** C9: [ChangeUnits] with the unit system the forecast is in already
    leaves the forecast as it is, items included. *)
Theorem ChangeUnits_same_units (s : SurfForecast.t) (u : UnitSystem) :
  SurfForecast.Units s = u -> ChangeUnits s u = s.
Proof.
  intros Hu. unfold ChangeUnits.
  destruct (decide (SurfForecast.Units s = u)); [reflexivity|contradiction].
Qed.

(** [NewSurfForecast] returns nil exactly when the wave series it reads
    is nil or empty. *)
Lemma NewSurfForecast_nil loc beachAngle beachSlope wave wind :
  result (NewSurfForecast loc beachAngle beachSlope (Some wave) (Some wind))
    = Returned None <->
  len (WaveForecast.ForecastData (waveInMetric wave)) = 0%nat.
Proof. apply synthesize_nil. Qed.

End SynthesisClaims.


(** ** The synthesis on the sample data *)

Import Samples.

Section ShortWindSeries.
Context `{SurfCollaborators}.

(** C2, at a wave series of two records and a wind series of one: the
    call does not fall back on the surface wind at the index 1, it
    panics there, indexing the wind series out of its range. *)
Theorem short_wind_series_panics :
  result (NewSurfForecast beach (of_Z 180) zero (Some waveForecast) (Some shortWind))
  = Panicked (IndexOutOfRange 1 1).
Proof. reflexivity. Qed.

(** C3, at the same input: the wave series holds two records and the
    wind series is neither nil nor empty, yet the call produces no
    forecast, and not by returning nil. *)
Theorem no_forecast_for_a_wave_series_with_records :
  len (WaveForecast.ForecastData waveForecast) = 2%nat /\
  len (WindForecast.ForecastData shortWind) = 1%nat /\
  exists p,
    result (NewSurfForecast beach (of_Z 180) zero (Some waveForecast) (Some shortWind))
    = Panicked p.
Proof.
  split; [reflexivity|]. split; [reflexivity|].
  eexists. reflexivity.
Qed.

End ShortWindSeries.

(** C1 as the claim states it fails. Three swells of maximum breaking
    height 1 each: the claim makes swell 1 ([swellA]) the primary and
    swell 3 ([swellC]) the tertiary one, the code makes swell 3 the
    primary and swell 1 the tertiary one. With the maxima 1, 1, 0, where
    only swell 1 and swell 2 tie, the code ranks swell 2 ([swellB])
    before swell 1. And with the maxima 1, NaN, 0 the primary swell is
    the one of maximum 0 and the tertiary swell the one of maximum 1:
    not a descending order. *)
Lemma equal_maxima_rank_the_later_swell_first :
  (let ranked :=
     rankSwells SurfForecastItem.zeroValue
       swellA one one swellB one one swellC one one in
   SurfForecastItem.PrimarySwellComponent ranked = swellC /\
   SurfForecastItem.SecondarySwellComponent ranked = swellB /\
   SurfForecastItem.TertiarySwellComponent ranked = swellA) /\
  (let ranked :=
     rankSwells SurfForecastItem.zeroValue
       swellA one one swellB one one swellC zero zero in
   SurfForecastItem.PrimarySwellComponent ranked = swellB /\
   SurfForecastItem.SecondarySwellComponent ranked = swellA /\
   SurfForecastItem.TertiarySwellComponent ranked = swellC) /\
  (let ranked :=
     rankSwells SurfForecastItem.zeroValue
       swellA one one swellB S754_nan S754_nan swellC zero zero in
   SurfForecastItem.PrimarySwellComponent ranked = swellC /\
   SurfForecastItem.MaximumBreakingHeight ranked = zero /\
   SurfForecastItem.TertiarySwellComponent ranked = swellA /\
   lt zero one = true) /\
  swellA <> swellB /\ swellA <> swellC /\ swellB <> swellC.
Proof.
  split; [|split; [|split]]; [repeat split; reflexivity..|].
  repeat split; discriminate.
Qed.

(** The same on a whole synthesis: the second record of the sample wave
    forecast has three swells of no height, hence of maximum 0 each, and
    comes out with its wind swell (period 3) as primary and its primary
    swell (period 10) as tertiary. *)
Example flat_record_ranked_in_reverse :
  exists sf items item,
    result (NewSurfForecast (H := surfCollaborators)
              beach (of_Z 180) zero (Some waveForecast) (Some noWind))
      = Returned (Some sf) /\
    SurfForecast.ForecastData sf = Some items /\
    items !! 1%nat = Some item /\
    Swell.Period (SurfForecastItem.PrimarySwellComponent item) = of_Z 3 /\
    Swell.Period (SurfForecastItem.SecondarySwellComponent item) = of_Z 6 /\
    Swell.Period (SurfForecastItem.TertiarySwellComponent item) = of_Z 10.
Proof. do 3 eexists. repeat split; reflexivity. Qed.

(** C1 on the sample data: the first item of the forecast for the sample
    wave forecast and no wind data. *)
Lemma ranking_descending_later_declared_first_witness :
  exists sf items item ws w,
    result (NewSurfForecast (H := surfCollaborators)
              beach (of_Z 180) zero (Some waveForecast) (Some noWind))
      = Returned (Some sf) /\
    SurfForecast.ForecastData sf = Some items /\
    items !! 0%nat = Some item /\
    WaveForecast.ForecastData (waveInMetric (H := surfCollaborators) waveForecast)
      = Some ws /\
    ws !! 0%nat = Some w /\
    let c1 := candidateOne (H := surfCollaborators) sf w in
    let c2 := candidateTwo (H := surfCollaborators) sf w in
    let c3 := candidateThree (H := surfCollaborators) sf w in
    (exists p s t,
       [p; s; t] ≡ₚ [c1; c2; c3] /\ rankedAs item p s t /\
       ahead p s /\ ahead s t /\
       (isNaN (maximum c2) = false -> ahead p t)) /\
    (eq (maximum c1) (maximum c2) = true ->
     eq (maximum c2) (maximum c3) = true ->
     rankedAs item c3 c2 c1) /\
    (eq (maximum c1) (maximum c2) = true ->
     rankedAs item c2 c1 c3 \/ rankedAs item c2 c3 c1 \/ rankedAs item c3 c2 c1).
Proof.
  pose proof (ranking_descending_later_declared_first (H := surfCollaborators)
                beach (of_Z 180) zero waveForecast noWind
                _ _ 0%nat _ eq_refl eq_refl eq_refl)
    as (ws & w & Hws & Hw & Hranked).
  do 3 eexists. exists ws, w.
  split; [reflexivity|]. split; [reflexivity|]. split; [reflexivity|].
  split; [exact Hws|]. split; [exact Hw|]. exact Hranked.
Defined.

(** C7 on the sample data: no wind data, then a wind series as long as
    the wave series. *)
Lemma wind_fields_mirror_or_fall_back_witness :
  (exists sf items,
     result (NewSurfForecast (H := surfCollaborators)
               beach (of_Z 180) zero (Some waveForecast) (Some noWind))
       = Returned (Some sf) /\
     SurfForecast.ForecastData sf = Some items /\
     length items = 2%nat /\
     forall i w, [waveRecord; flatRecord] !! i = Some w ->
       exists item, items !! i = Some item /\ fallsBackOn item w) /\
  (forall sf items i v item,
     result (NewSurfForecast (H := surfCollaborators)
               beach (of_Z 180) zero (Some waveForecast) (Some fullWind))
       = Returned (Some sf) ->
     SurfForecast.ForecastData sf = Some items ->
     [windRecord; windRecord] !! i = Some v -> items !! i = Some item ->
     mirrorsWind item v).
Proof.
  split.
  - apply (proj1 (wind_fields_mirror_or_fall_back (H := surfCollaborators)
                    beach (of_Z 180) zero waveForecast noWind) eq_refl
             [waveRecord; flatRecord] eq_refl).
    discriminate.
  - intros sf items i v item Hr Hitems Hv Hi.
    exact (proj1 (proj2 (wind_fields_mirror_or_fall_back (H := surfCollaborators)
                           beach (of_Z 180) zero waveForecast fullWind))
             sf items _ i v item Hr Hitems eq_refl Hv Hi).
Defined.

(** C9 on the sample data: a metric forecast asked to change to metric. *)
Lemma ChangeUnits_same_units_witness :
  let s := emptySurfForecast beach (of_Z 180) zero waveForecast noWind in
  SurfForecast.Units s = Metric /\
  ChangeUnits (H := surfCollaborators) s Metric = s.
Proof.
  split; [reflexivity|].
  apply (ChangeUnits_same_units (H := surfCollaborators)). reflexivity.
Defined.

(** C10 on the sample data: a wave forecast in the other unit system is
    left converted, the wind forecast stays as it is, and the forecast
    returned is metric. *)
Lemma returned_forecast_and_inputs_in_metric_witness :
  let after :=
    NewSurfForecast (H := surfCollaborators)
      beach (of_Z 180) zero (Some englishWaveForecast) (Some noWind) in
  (exists sf, result after = Returned (Some sf) /\ SurfForecast.Units sf = Metric) /\
  waveForecastAfter after
    = Some (WaveForecast.mk gridPoint (NOAAModel.mk Metric) (Some [waveRecord])) /\
  windForecastAfter after = Some noWind.
Proof.
  destruct (returned_forecast_and_inputs_in_metric (H := surfCollaborators)
              beach (of_Z 180) zero englishWaveForecast noWind)
    as (Hunits & Hwave & Hwind & _).
  split; [|split; [exact Hwave|exact Hwind]].
  eexists. split; [reflexivity|]. apply Hunits. reflexivity.
Defined.


(** ** Breaking heights of a swell without height *)

(** C4, on the breaking heights as the specification describes them: a
    swell whose height is zero (+0 or -0) has the breaking height range
    (0, 0), two finite values, whatever its period and direction, the
    beach angle, the depth and the beach slope are, and whatever the
    refraction, shoaling and breaking estimates compute. *)
Theorem zero_height_breaks_at_zero
    (refractionFactor : float64 -> float64 -> float64)
    (shoalingFactor : float64 -> float64 -> float64 -> float64)
    (breakingCriterion : float64 -> float64 -> float64 * float64)
    (s : Swell.t) (beachAngle depth beachSlope : float64) :
  eq (Swell.WaveHeight s) zero = true ->
  let range :=
    SpecModel.BreakingWaveHeights refractionFactor shoalingFactor
      breakingCriterion s beachAngle depth beachSlope in
  range = (zero, zero) /\
  isFinite (fst range) = true /\ isFinite (snd range) = true.
Proof.
  intros Hzero range. subst range. unfold SpecModel.BreakingWaveHeights.
  rewrite Hzero. repeat split.
Qed.

(** C4 at a swell of height -0 with a NaN period, at depth 0, with
    estimates that would yield NaN and infinities were they consulted. *)
Lemma zero_height_breaks_at_zero_witness :
  let s := Swell.mk (S754_zero true) S754_nan (of_Z 200) "SSW" in
  let range :=
    SpecModel.BreakingWaveHeights
      (fun _ _ => S754_nan) (fun _ _ _ => S754_infinity false)
      (fun h d => (div h d, div h d)) s (of_Z 180) zero zero in
  range = (zero, zero) /\
  isFinite (fst range) = true /\ isFinite (snd range) = true.
Proof.
  apply (zero_height_breaks_at_zero
           (fun _ _ => S754_nan) (fun _ _ _ => S754_infinity false)
           (fun h d => (div h d, div h d))).
  reflexivity.
Defined.

(** ** Merging a latest report (buoyitem.go, buoy.go) *)

(** Each field assignment sets its field. *)
Lemma BuoyItem_assignments (b : BuoyItem.t)
    (vt : GoTime.Time) (vf : float64) (vs : string) :
  BuoyItem.Date (BuoyItem.set_Date vt b) = vt /\
  BuoyItem.SignificantWaveHeight (BuoyItem.set_SignificantWaveHeight vf b) = vf /\
  BuoyItem.DominantWavePeriod (BuoyItem.set_DominantWavePeriod vf b) = vf /\
  BuoyItem.Pressure (BuoyItem.set_Pressure vf b) = vf /\
  BuoyItem.AirTemperature (BuoyItem.set_AirTemperature vf b) = vf /\
  BuoyItem.WaterTemperature (BuoyItem.set_WaterTemperature vf b) = vf /\
  BuoyItem.DewpointTemperature (BuoyItem.set_DewpointTemperature vf b) = vf /\
  BuoyItem.SwellWaveHeight (BuoyItem.set_SwellWaveHeight vf b) = vf /\
  BuoyItem.WindSwellWaveHeight (BuoyItem.set_WindSwellWaveHeight vf b) = vf /\
  BuoyItem.SwellWavePeriod (BuoyItem.set_SwellWavePeriod vf b) = vf /\
  BuoyItem.WindSwellWavePeriod (BuoyItem.set_WindSwellWavePeriod vf b) = vf /\
  BuoyItem.SwellWaveDirection (BuoyItem.set_SwellWaveDirection vs b) = vs /\
  BuoyItem.WindSwellDirection (BuoyItem.set_WindSwellDirection vs b) = vs.
Proof. destruct b. repeat split. Qed.

(** What [MergeLatestBuoyReading] leaves as it was: the swell and wind
    swell fields among others. *)
Lemma MergeLatestBuoyReading_kept (b newBuoyData : BuoyItem.t) :
  let merged := BuoyItem.MergeLatestBuoyReading b newBuoyData in
  BuoyItem.SwellWaveHeight merged = BuoyItem.SwellWaveHeight b /\
  BuoyItem.SwellWavePeriod merged = BuoyItem.SwellWavePeriod b /\
  BuoyItem.SwellWaveDirection merged = BuoyItem.SwellWaveDirection b /\
  BuoyItem.WindSwellWaveHeight merged = BuoyItem.WindSwellWaveHeight b /\
  BuoyItem.WindSwellWavePeriod merged = BuoyItem.WindSwellWavePeriod b /\
  BuoyItem.WindSwellDirection merged = BuoyItem.WindSwellDirection b /\
  BuoyItem.DominantWaveDirection merged = BuoyItem.DominantWaveDirection b /\
  BuoyItem.Steepness merged = BuoyItem.Steepness b /\
  BuoyItem.Visibility merged = BuoyItem.Visibility b /\
  BuoyItem.PressureTendency merged = BuoyItem.PressureTendency b /\
  BuoyItem.WaterLevel merged = BuoyItem.WaterLevel b.
Proof. simpl. repeat split. Qed.

Lemma MergeLatestBuoyReading_same (b : BuoyItem.t) :
  BuoyItem.MergeLatestBuoyReading b b = b.
Proof. destruct b. reflexivity. Qed.

(** C5, at the sample report merged into an observation that exists: the
    report carries a swell of 2 from SSE (period 9) and a wind wave of 1
    from W (period 4), and the wave height 3. The wave height is
    replaced; the swell and wind swell heights, periods and directions
    of the observation are not, they stay 5 from NE and 7 from E with
    periods 0. *)
Theorem latest_merge_keeps_old_swell_fields :
  exists incoming merged,
    parseLatestBuoyItem (H := buoyCollaborators) latestReport = Some incoming /\
    Buoy.BuoyData
      (fst (ParseRawLatestBuoyData (H := buoyCollaborators)
              (buoyWith (Some [olderObservation])) latestReport))
      = Some [merged] /\
    BuoyItem.SignificantWaveHeight incoming = of_Z 3 /\
    BuoyItem.SignificantWaveHeight merged = of_Z 3 /\
    (BuoyItem.SwellWaveHeight incoming = of_Z 2 /\
     BuoyItem.SwellWaveHeight merged = of_Z 5) /\
    (BuoyItem.SwellWavePeriod incoming = of_Z 9 /\
     BuoyItem.SwellWavePeriod merged = zero) /\
    (BuoyItem.SwellWaveDirection incoming = "SSE" /\
     BuoyItem.SwellWaveDirection merged = "NE") /\
    (BuoyItem.WindSwellWaveHeight incoming = of_Z 1 /\
     BuoyItem.WindSwellWaveHeight merged = of_Z 7) /\
    (BuoyItem.WindSwellWavePeriod incoming = of_Z 4 /\
     BuoyItem.WindSwellWavePeriod merged = zero) /\
    (BuoyItem.WindSwellDirection incoming = "W" /\
     BuoyItem.WindSwellDirection merged = "E").
Proof. do 2 eexists. repeat split; reflexivity. Qed.

Section LatestReportTwice.
Context `{BuoyCollaborators}.

(** C8: a latest report parsed twice into a buoy whose observation
    series is nil or empty leaves the buoy, and returns the error, that
    parsing it once does. *)
Theorem latest_report_twice_is_once (b : Buoy.t) (rawBuoyData : string) :
  len (Buoy.BuoyData b) = 0%nat ->
  ParseRawLatestBuoyData (fst (ParseRawLatestBuoyData b rawBuoyData)) rawBuoyData
  = ParseRawLatestBuoyData b rawBuoyData.
Proof.
  intros Hempty. unfold ParseRawLatestBuoyData.
  destruct (parseLatestBuoyItem rawBuoyData) as [item|] eqn:Hitem.
  - destruct (Buoy.BuoyData b) as [[|first rest]|] eqn:Hdata;
      [|simpl in Hempty; lia|];
      simpl; rewrite MergeLatestBuoyReading_same; reflexivity.
  - simpl. reflexivity.
Qed.

End LatestReportTwice.

(** C8 on the sample report and a buoy without observations. *)
Lemma latest_report_twice_is_once_witness :
  len (Buoy.BuoyData (buoyWith None)) = 0%nat /\
  ParseRawLatestBuoyData (H := buoyCollaborators)
    (fst (ParseRawLatestBuoyData (H := buoyCollaborators)
            (buoyWith None) latestReport))
    latestReport
  = ParseRawLatestBuoyData (H := buoyCollaborators) (buoyWith None) latestReport.
Proof.
  split; [reflexivity|].
  apply (latest_report_twice_is_once (H := buoyCollaborators)). reflexivity.
Defined.

(** The report is read, so both sides above hold an observation. *)
Example latest_report_is_read :
  exists item,
    ParseRawLatestBuoyData (H := buoyCollaborators) (buoyWith None) latestReport
    = (buoyWith (Some [item]), None) /\
    BuoyItem.SwellWaveDirection item = "SSE".
Proof. eexists. split; reflexivity. Qed.


(** ** Nearest observation (buoy.go, lines 341-360) *)

Lemma lt_irrefl (x : float64) : lt x x = false.
Proof.
  destruct (lt x x) eqn:Hlt; [|reflexivity].
  rewrite (lt_asym _ _ Hlt) in Hlt. discriminate.
Qed.

(** The scan from an item on: it ends on that item or on a later one
    that is strictly closer, with the duration to it, and nothing it
    went through is strictly closer than where it ends. *)
Lemma scan_closest (date : GoTime.Time) (rest : list BuoyItem.t) :
  forall first,
  exists found,
    fold_left (closer date) rest (first, GoTime.Sub date (BuoyItem.Date first))
    = (found, GoTime.Sub date (BuoyItem.Date found)) /\
    (found = first \/
     (found ∈ rest /\ lt (absSeconds date found) (absSeconds date first) = true)) /\
    forall item, item ∈ rest ->
      lt (absSeconds date item) (absSeconds date found) = false.
Proof.
  induction rest as [|x rest IH]; intros first.
  - exists first. split; [reflexivity|]. split; [left; reflexivity|].
    intros item Hin. inversion Hin.
  - cbn [fold_left closer].
    fold (absSeconds date x). fold (absSeconds date first).
    destruct (lt (absSeconds date x) (absSeconds date first)) eqn:Hx.
    + destruct (IH x) as (found & Hfold & Hwhere & Hmin).
      exists found. split; [exact Hfold|].
      assert (Hcloser : lt (absSeconds date found) (absSeconds date first) = true).
      { destruct Hwhere as [->|[_ Hlt]]; [exact Hx|].
        exact (lt_trans _ _ _ Hlt Hx). }
      split.
      * right. split; [|exact Hcloser].
        destruct Hwhere as [->|[Hin _]]; [left|right; exact Hin].
      * intros item [->|Hin]%elem_of_cons; [|exact (Hmin item Hin)].
        destruct Hwhere as [->|[_ Hlt]]; [apply lt_irrefl|].
        apply lt_asym. exact Hlt.
    + destruct (IH first) as (found & Hfold & Hwhere & Hmin).
      exists found. split; [exact Hfold|]. split.
      * destruct Hwhere as [->|[Hin Hlt]]; [left; reflexivity|].
        right. split; [right; exact Hin|exact Hlt].
      * intros item [->|Hin]%elem_of_cons; [|exact (Hmin item Hin)].
        destruct Hwhere as [->|[_ Hlt]]; [exact Hx|].
        destruct (lt (absSeconds date x) (absSeconds date found)) eqn:Hxf;
          [|reflexivity].
        rewrite (lt_trans _ _ _ Hxf Hlt) in Hx. discriminate.
Qed.

Lemma Sub_sign (t u : GoTime.Time) :
  (u < t -> 0 < GoTime.Sub t u) /\ (t < u -> GoTime.Sub t u < 0) /\
  (t = u -> GoTime.Sub t u = 0).
Proof. unfold GoTime.Sub, GoTime.minDuration, GoTime.maxDuration. lia. Qed.

(** C6, as the code has it. On a nil or empty series the lookup returns
    the zero item and the duration -1. On any other series it returns an
    observation of the series together with the duration from that
    observation to the query (query minus observation, kept within the
    range of a duration): positive when the observation lies in the
    past of the query, negative when it lies in its future; no
    observation of the series is closer to the query, the distance being
    the absolute number of seconds as a float64, which is how line 353
    compares; and on a series of one observation it returns that one. *)
Theorem nearest_observation (b : Buoy.t) (date : GoTime.Time) :
  match Buoy.BuoyData b with
  | None | Some [] =>
      FindConditionsForDateAndTime b date = (BuoyItem.zeroValue, -1)
  | Some (first :: rest) =>
      exists found,
        let duration := GoTime.Sub date (BuoyItem.Date found) in
        FindConditionsForDateAndTime b date = (found, duration) /\
        found ∈ first :: rest /\
        (forall item, item ∈ first :: rest ->
           lt (absSeconds date item) (absSeconds date found) = false) /\
        (BuoyItem.Date found < date -> 0 < duration) /\
        (date < BuoyItem.Date found -> duration < 0) /\
        (rest = [] -> found = first)
  end.
Proof.
  unfold FindConditionsForDateAndTime.
  destruct (Buoy.BuoyData b) as [[|first rest]|]; try reflexivity.
  destruct (scan_closest date rest first) as (found & Hfold & Hwhere & Hmin).
  exists found. cbv zeta. split; [exact Hfold|]. split; [|split].
  - destruct Hwhere as [->|[Hin _]]; [left|right; exact Hin].
  - intros item [->|Hin]%elem_of_cons; [|exact (Hmin item Hin)].
    destruct Hwhere as [->|[_ Hlt]]; [apply lt_irrefl|].
    apply lt_asym. exact Hlt.
  - destruct (Sub_sign date (BuoyItem.Date found)) as (Hpast & Hfuture & _).
    split; [exact Hpast|]. split; [exact Hfuture|].
    intros ->. destruct Hwhere as [->|[Hin _]]; [reflexivity|inversion Hin].
Qed.

(** C6 as the claim states it fails, in three places.
    - The sign: an observation at the instant 0 lies in the past of a
      query at the instant 5, and the duration returned is +5, not a
      negative one.
    - The sentinel: on a series of one observation that lies one
      nanosecond after the query the duration returned is -1 as well, so
      -1 is not returned on a nil or empty series only.
    - The minimum: of two observations some 285 years before the query,
      the second is 500 nanoseconds closer, but both distances are the
      same float64 number of seconds, and the first is returned. *)
Lemma nearest_lookup_sign_sentinel_rounding :
  FindConditionsForDateAndTime (buoyWith (Some [observedAt 0])) 5
    = (observedAt 0, 5) /\
  FindConditionsForDateAndTime (buoyWith (Some [observedAt 1])) 0
    = (observedAt 1, -1) /\
  (let date := 9000000000 * GoTime.Second + 500 in
   FindConditionsForDateAndTime
     (buoyWith (Some [observedAt 0; observedAt 500])) date
     = (observedAt 0, date) /\
   Z.abs (GoTime.Sub date (BuoyItem.Date (observedAt 500)))
     < Z.abs (GoTime.Sub date (BuoyItem.Date (observedAt 0)))).
Proof.
  split; [reflexivity|]. split; [reflexivity|].
  split; [vm_compute; reflexivity|vm_compute; reflexivity].
Qed.

(** C6 on a series of three observations at the instants 10, 40 and
    100, asked for the instant 50: the observation at 40, ten
    nanoseconds in the past of the query, with the duration +10. *)
Lemma nearest_observation_witness :
  let series := [observedAt 10; observedAt 40; observedAt 100] in
  FindConditionsForDateAndTime (buoyWith (Some series)) 50 = (observedAt 40, 10) /\
  exists found,
    let duration := GoTime.Sub 50 (BuoyItem.Date found) in
    FindConditionsForDateAndTime (buoyWith (Some series)) 50 = (found, duration) /\
    found ∈ series /\
    (forall item, item ∈ series ->
       lt (absSeconds 50 item) (absSeconds 50 found) = false) /\
    (BuoyItem.Date found < 50 -> 0 < duration) /\
    (50 < BuoyItem.Date found -> duration < 0) /\
    ([observedAt 40; observedAt 100] = [] -> found = observedAt 10).
Proof.
  split; [reflexivity|].
  exact (nearest_observation
           (buoyWith (Some [observedAt 10; observedAt 40; observedAt 100])) 50).
Defined.


(** ** The standard and the detailed report (buoy.go, lines 192-293) *)

Section RawDataFacts.
Variable dataLineLength : nat.
Variable readLine : slice string -> nat -> run BuoyItem.t.
Variable mergeWanted : BuoyItem.t -> bool.
Variable mergeReading : BuoyItem.t -> BuoyItem.t -> BuoyItem.t.

Hypothesis positive_length : (0 < dataLineLength)%nat.
(** A line that lies within the report is read without a crash. *)
Hypothesis readLine_within : forall raw line,
  ((line + 1) * dataLineLength <= length raw)%nat ->
  exists item, readLine (Some raw) (line * dataLineLength) = Done item.

Local Abbreviation parseLines' := (parseLines dataLineLength readLine mergeWanted mergeReading).
Local Abbreviation storeReading' := (storeReading mergeWanted mergeReading).
Local Abbreviation stored' := (stored mergeWanted mergeReading).
Local Abbreviation readingAt' := (readingAt dataLineLength readLine).

Lemma readingAt_within raw line :
  ((line + 1) * dataLineLength <= length raw)%nat ->
  readLine (Some raw) (line * dataLineLength) = Done (readingAt' (Some raw) line).
Proof.
  intros Hin. destruct (readLine_within raw line Hin) as [item Hitem].
  unfold readingAt. rewrite Hitem. reflexivity.
Qed.

Lemma storeReading_done data i new :
  (i <= length data)%nat ->
  storeReading' (Some data) i new
  = Done (Some (take i data ++ [stored' (data !! i) new] ++ drop (S i) data)).
Proof.
  intros Hi. unfold storeReading, len.
  destruct (length data <=? i)%nat eqn:Hle.
  - apply Nat.leb_le in Hle. assert (i = length data) as -> by lia.
    rewrite take_ge, drop_ge, lookup_ge_None_2 by lia.
    simpl. reflexivity.
  - apply Nat.leb_gt in Hle.
    destruct (lookup_lt_is_Some_2 data i Hle) as [existing Hex].
    unfold at_, index. rewrite Hex. simpl.
    destruct (mergeWanted existing); simpl;
      rewrite insert_take_drop by lia; reflexivity.
Qed.

(** The loop in closed form: the observations before [itemIndex] and
    from [itemIndex + n] on stay, and the one at [itemIndex + k] is
    merged with or replaced by the reading of the line [line + k]. *)
Lemma parseLines_done raw n :
  forall data line itemIndex,
    (itemIndex <= length data)%nat ->
    (n = 0%nat \/ ((line + n) * dataLineLength <= length raw)%nat) ->
    parseLines' (Some raw) (Some data) line itemIndex n
    = Done (Some (take itemIndex data
                  ++ ((fun k => stored' (data !! (itemIndex + k)%nat)
                                  (readingAt' (Some raw) (line + k)%nat))
                      <$> seq 0 n)
                  ++ drop (itemIndex + n) data)).
Proof.
  induction n as [|n IH]; intros data line itemIndex Hi Hraw.
  - simpl. rewrite Nat.add_0_r, take_drop. reflexivity.
  - destruct Hraw as [Hraw|Hraw]; [discriminate|].
    cbn [parseLines len].
    assert (Hlt : (length raw <? line * dataLineLength)%nat = false)
      by (apply Nat.ltb_ge; nia).
    rewrite Hlt, readingAt_within by nia. simpl.
    rewrite storeReading_done by assumption. simpl.
    set (x := stored' (data !! itemIndex) (readingAt' (Some raw) line)).
    set (data1 := take itemIndex data ++ x :: drop (S itemIndex) data).
    assert (Hlen1 : length data1 = Nat.max (length data) (S itemIndex)).
    { unfold data1. rewrite length_app, length_take. simpl.
      rewrite length_drop. lia. }
    rewrite IH by (try rewrite Hlen1; first [lia | destruct n; [left; reflexivity | right; nia]]).
    do 2 f_equal.
    assert (Htake : take (S itemIndex) data1 = take itemIndex data ++ [x]).
    { unfold data1. rewrite take_app, length_take.
      replace (Init.Nat.min itemIndex (length data)) with itemIndex by lia.
      rewrite take_take. replace (Init.Nat.min (S itemIndex) itemIndex) with itemIndex by lia.
      replace (S itemIndex - itemIndex)%nat with 1%nat by lia. reflexivity. }
    assert (Hdrop : forall m, drop (S itemIndex + m) data1
                              = drop (S itemIndex + m) data).
    { intros m. unfold data1. rewrite drop_app, length_take.
      replace (Init.Nat.min itemIndex (length data)) with itemIndex by lia.
      rewrite drop_ge by (rewrite length_take; lia).
      replace (S itemIndex + m - itemIndex)%nat with (S m) by lia.
      simpl. rewrite drop_drop. f_equal. }
    assert (Hlook : forall m, data1 !! (S itemIndex + m)%nat
                              = data !! (S itemIndex + m)%nat).
    { intros m. unfold data1. rewrite lookup_app_r by (rewrite length_take; lia).
      rewrite length_take.
      replace (S itemIndex + m - Init.Nat.min itemIndex (length data))%nat
        with (S m) by lia.
      simpl. rewrite lookup_drop. reflexivity. }
    rewrite Htake, Hdrop, <- app_assoc.
    replace (itemIndex + S n)%nat with (S itemIndex + n)%nat by lia.
    rewrite !Nat.add_0_r. fold x. simpl. do 3 f_equal.
    rewrite <- fmap_S_seq, <- list_fmap_compose.
    apply list_fmap_ext. intros _ k _. unfold compose.
    change (S (itemIndex + k)) with (S itemIndex + k)%nat.
    rewrite Hlook.
    replace (itemIndex + S k)%nat with (S itemIndex + k)%nat by lia.
    replace (line + S k)%nat with (S (line + k)) by lia. reflexivity.
Qed.

Local Abbreviation parseRawData' :=
  (parseRawData dataLineLength readLine mergeWanted mergeReading).
Local Abbreviation updatedSeries' :=
  (updatedSeries dataLineLength readLine mergeWanted mergeReading).

(** The lines that the loop reads lie within the report. *)
Lemma dataLineCount_fits (rawData : slice string) (dataCountLimit : Z) :
  let n := Z.to_nat (dataLineCountOf dataLineLength rawData dataCountLimit
                     - headerLines) in
  n = 0%nat \/ ((2 + n) * dataLineLength <= len rawData)%nat.
Proof.
  cbv zeta. unfold dataLineCountOf, headerLines.
  set (size := Z.of_nat (len rawData)).
  set (width := Z.of_nat dataLineLength).
  assert (Hwidth : 0 < width) by (unfold width; lia).
  assert (Hsize : 0 <= size) by (unfold size; lia).
  rewrite Z.quot_div_nonneg by lia.
  pose proof (Z.mul_div_le size width Hwidth) as Hmul.
  assert (Hq : 0 <= size / width) by (apply Z.div_pos; lia).
  destruct ((dataCountLimit <? size / width - 2)%Z && (0 <=? dataCountLimit)%Z)%bool
    eqn:Hlimit.
  - apply andb_true_iff in Hlimit as [Hlt%Z.ltb_lt Hge%Z.leb_le].
    destruct (Z.to_nat (dataCountLimit - 2)) eqn:Hn; [left; reflexivity|right].
    apply Nat2Z.inj_le. rewrite Nat2Z.inj_mul, Nat2Z.inj_add.
    fold size width. nia.
  - destruct (Z.to_nat (size / width - 2 - 2)) eqn:Hn; [left; reflexivity|right].
    apply Nat2Z.inj_le. rewrite Nat2Z.inj_mul, Nat2Z.inj_add.
    fold size width. nia.
Qed.

(** A report too short for its two header lines has a negative count. *)
Lemma dataLineCount_negative (rawData : slice string) (dataCountLimit : Z) :
  dataLineCountOf dataLineLength rawData dataCountLimit < 0
  <-> (len rawData < 2 * dataLineLength)%nat.
Proof.
  unfold dataLineCountOf, headerLines.
  set (size := Z.of_nat (len rawData)).
  set (width := Z.of_nat dataLineLength).
  assert (Hwidth : 0 < width) by (unfold width; lia).
  assert (Hsize : 0 <= size) by (unfold size; lia).
  rewrite Z.quot_div_nonneg by lia.
  assert (Hdiv : size / width < 2 <-> size < 2 * width).
  { split; intros Hlt.
    - destruct (Z.lt_ge_cases size (2 * width)) as [Hsmall|Hlarge];
        [assumption|].
      pose proof (Z.div_le_lower_bound size width 2 Hwidth). lia.
    - apply Z.div_lt_upper_bound; lia. }
  assert (Hnat : size < 2 * width <-> (len rawData < 2 * dataLineLength)%nat)
    by (unfold size, width; lia).
  destruct ((dataCountLimit <? size / width - 2)%Z && (0 <=? dataCountLimit)%Z)%bool
    eqn:Hlimit.
  - apply andb_true_iff in Hlimit as [Hlt%Z.ltb_lt Hge%Z.leb_le]. lia.
  - lia.
Qed.

(** The whole call in closed form. *)
Lemma parseRawData_closed (b : Buoy.t) (rawData : slice string)
    (dataCountLimit : Z) :
  let dataLineCount := dataLineCountOf dataLineLength rawData dataCountLimit in
  let n := Z.to_nat (dataLineCount - headerLines) in
  parseRawData' b rawData dataCountLimit
  = match Buoy.BuoyData b with
    | None | Some [] =>
        if (dataLineCount <? 0)%Z then Crashed MakeSliceLenOutOfRange
        else Done (Buoy.set_BuoyData
                     (Some (updatedSeries' rawData n
                              (replicate (Z.to_nat dataLineCount)
                                 BuoyItem.zeroValue))) b, None)
    | Some data =>
        Done (Buoy.set_BuoyData (Some (updatedSeries' rawData n data)) b, None)
    end.
Proof.
  intros dataLineCount n. unfold parseRawData. fold dataLineCount n.
  pose proof (dataLineCount_fits rawData dataCountLimit) as Hfits.
  fold dataLineCount n in Hfits. cbv zeta in Hfits.
  assert (Hloop : forall data,
            parseLines' rawData (Some data) (Z.to_nat headerLines) 0 n
            = Done (Some (updatedSeries' rawData n data))).
  { intros data. destruct rawData as [raw|].
    - rewrite parseLines_done by (try (simpl; lia); exact Hfits).
      reflexivity.
    - destruct Hfits as [->|Hfits]; [|simpl in Hfits; lia].
      unfold updatedSeries. reflexivity. }
  destruct (Buoy.BuoyData b) as [[|first rest]|]; cbn [isNil len length Nat.eqb].
  - unfold makeInt. destruct (dataLineCount <? 0)%Z; [reflexivity|].
    simpl. unfold make. rewrite Hloop. reflexivity.
  - simpl. rewrite Hloop. reflexivity.
  - unfold makeInt. destruct (dataLineCount <? 0)%Z; [reflexivity|].
    simpl. unfold make. rewrite Hloop. reflexivity.
Qed.

(** The only crash is that of [make], and it happens exactly when the
    series is nil or empty and the report has fewer than two lines. *)
Lemma parseRawData_outcome (b : Buoy.t) (rawData : slice string)
    (dataCountLimit : Z) :
  match parseRawData' b rawData dataCountLimit with
  | Crashed c =>
      c = MakeSliceLenOutOfRange /\ len (Buoy.BuoyData b) = 0%nat /\
      (len rawData < 2 * dataLineLength)%nat
  | Done (b', err) =>
      err = None /\ b' = Buoy.set_BuoyData (Buoy.BuoyData b') b /\
      ~ (len (Buoy.BuoyData b) = 0%nat /\
         (len rawData < 2 * dataLineLength)%nat)
  end.
Proof.
  rewrite parseRawData_closed.
  pose proof (dataLineCount_negative rawData dataCountLimit) as Hneg.
  destruct (Buoy.BuoyData b) as [[|first rest]|] eqn:Hdata.
  - destruct (Z.ltb_spec (dataLineCountOf dataLineLength rawData dataCountLimit) 0).
    + repeat split. apply Hneg. assumption.
    + split; [reflexivity|]. split; [reflexivity|]. intros [_ Hshort].
      apply Hneg in Hshort. lia.
  - split; [reflexivity|]. split; [reflexivity|]. intros [Hlen _].
    simpl in Hlen. lia.
  - destruct (Z.ltb_spec (dataLineCountOf dataLineLength rawData dataCountLimit) 0).
    + repeat split. apply Hneg. assumption.
    + split; [reflexivity|]. split; [reflexivity|]. intros [_ Hshort].
      apply Hneg in Hshort. lia.
Qed.

(** Into a nil or empty series: as many observations as the line count
    says, the readings of the lines from the third on followed by zero
    observations, two of them unless the count is below two. *)
Lemma parseRawData_empty (b : Buoy.t) (rawData : slice string)
    (dataCountLimit : Z) :
  mergeWanted BuoyItem.zeroValue = false ->
  len (Buoy.BuoyData b) = 0%nat ->
  (2 * dataLineLength <= len rawData)%nat ->
  let count := Z.to_nat (dataLineCountOf dataLineLength rawData dataCountLimit) in
  parseRawData' b rawData dataCountLimit
  = Done (Buoy.set_BuoyData
            (Some ((readingAt' rawData <$> seq 2 (count - 2))
                   ++ replicate (Nat.min count 2) BuoyItem.zeroValue)) b,
          None).
Proof.
  intros Hzero Hempty Hlong count. rewrite parseRawData_closed.
  pose proof (dataLineCount_negative rawData dataCountLimit) as Hneg.
  assert (Hcount : 0 <= dataLineCountOf dataLineLength rawData dataCountLimit)
    by lia.
  assert (Hn : Z.to_nat (dataLineCountOf dataLineLength rawData dataCountLimit
                         - headerLines) = (count - 2)%nat)
    by (unfold count, headerLines; lia).
  rewrite Hn. fold count.
  assert (Hupdated :
            updatedSeries' rawData (count - 2) (replicate count BuoyItem.zeroValue)
            = (readingAt' rawData <$> seq 2 (count - 2))
              ++ replicate (Nat.min count 2) BuoyItem.zeroValue).
  { unfold updatedSeries. rewrite drop_replicate. f_equal.
    - rewrite <- (fmap_add_seq 2 0), <- list_fmap_compose.
      apply list_fmap_ext. intros i k Hk.
      apply lookup_seq in Hk as [-> Hk]. unfold compose. simpl.
      rewrite lookup_replicate_2 by lia. simpl. rewrite Hzero. reflexivity.
    - f_equal. lia. }
  rewrite Hupdated.
  destruct (Buoy.BuoyData b) as [[|first rest]|]; [| simpl in Hempty; lia |];
    destruct (Z.ltb_spec (dataLineCountOf dataLineLength rawData dataCountLimit) 0);
    try lia; reflexivity.
Qed.

(** Into a series that holds observations: the first observations, as
    many as lines are read, are merged with or replaced by the readings
    as the test says, the observations after them stay, and readings
    past the end of the series are added to it. *)
Lemma parseRawData_update (b : Buoy.t) (rawData : slice string)
    (dataCountLimit : Z) (data : list BuoyItem.t) :
  Buoy.BuoyData b = Some data -> data <> [] ->
  let n := Z.to_nat (dataLineCountOf dataLineLength rawData dataCountLimit - 2) in
  exists data',
    parseRawData' b rawData dataCountLimit
    = Done (Buoy.set_BuoyData (Some data') b, None) /\
    length data' = Nat.max (length data) n /\
    (forall k, (k < n)%nat ->
       data' !! k
       = Some (match data !! k with
               | Some existing =>
                   if mergeWanted existing
                   then mergeReading existing (readingAt' rawData (2 + k))
                   else readingAt' rawData (2 + k)
               | None => readingAt' rawData (2 + k)
               end)) /\
    (forall k, (n <= k)%nat -> data' !! k = data !! k).
Proof.
  intros Hdata Hne n. rewrite parseRawData_closed, Hdata.
  destruct data as [|first rest]; [congruence|].
  set (data := first :: rest) in *.
  change (Z.to_nat (dataLineCountOf dataLineLength rawData dataCountLimit
                    - headerLines)) with n.
  exists (updatedSeries' rawData n data).
  split; [reflexivity|]. unfold updatedSeries. split; [|split].
  - rewrite length_app, length_fmap, length_seq, length_drop. lia.
  - intros k Hk. rewrite lookup_app_l by (rewrite length_fmap, length_seq; lia).
    rewrite list_lookup_fmap, lookup_seq_lt by lia. reflexivity.
  - intros k Hk.
    rewrite lookup_app_r by (rewrite length_fmap, length_seq; lia).
    rewrite length_fmap, length_seq, lookup_drop. f_equal. lia.
Qed.

(** When no reading is one that the test would merge into, a report
    parsed into a nil or empty series and then parsed again leaves what
    the first parse left. *)
Lemma parseRawData_twice (b b1 : Buoy.t) (rawData : slice string)
    (dataCountLimit : Z) (err : option string) :
  (forall line, mergeWanted (readingAt' rawData line) = false) ->
  mergeWanted BuoyItem.zeroValue = false ->
  len (Buoy.BuoyData b) = 0%nat ->
  parseRawData' b rawData dataCountLimit = Done (b1, err) ->
  parseRawData' b1 rawData dataCountLimit = Done (b1, err).
Proof.
  intros Hreadings Hzero Hempty Hfirst.
  pose proof (parseRawData_outcome b rawData dataCountLimit) as Hout.
  rewrite Hfirst in Hout. destruct Hout as (-> & _ & Hlong).
  assert (Hlong' : (2 * dataLineLength <= len rawData)%nat) by lia.
  rewrite (parseRawData_empty b rawData dataCountLimit Hzero Hempty Hlong')
    in Hfirst.
  injection Hfirst as <-.
  set (count := Z.to_nat (dataLineCountOf dataLineLength rawData dataCountLimit)).
  set (data1 := (readingAt' rawData <$> seq 2 (count - 2))
                ++ replicate (Nat.min count 2) BuoyItem.zeroValue).
  rewrite parseRawData_closed. cbn [Buoy.set_BuoyData Buoy.BuoyData].
  pose proof (dataLineCount_negative rawData dataCountLimit) as Hneg.
  assert (Hcount : 0 <= dataLineCountOf dataLineLength rawData dataCountLimit)
    by lia.
  assert (Hn : Z.to_nat (dataLineCountOf dataLineLength rawData dataCountLimit
                         - headerLines) = (count - 2)%nat)
    by (unfold count, headerLines; lia).
  rewrite Hn.
  assert (Hsame : updatedSeries' rawData (count - 2) data1 = data1).
  { unfold updatedSeries, data1. f_equal.
    - rewrite <- (fmap_add_seq 2 0), <- list_fmap_compose.
      apply list_fmap_ext. intros i k Hk.
      apply lookup_seq in Hk as [-> Hk]. unfold compose. simpl.
      rewrite lookup_app_l by (rewrite length_fmap, length_seq; lia).
      rewrite list_lookup_fmap, lookup_seq_lt by lia. simpl.
      rewrite Hreadings. reflexivity.
    - rewrite drop_app_length'; [reflexivity|].
      rewrite length_fmap, length_seq. reflexivity. }
  assert (Hdata1 : data1 = [] -> count = 0%nat).
  { intros Hnil. apply (f_equal length) in Hnil. unfold data1 in Hnil.
    rewrite length_app, length_fmap, length_seq, length_replicate in Hnil.
    simpl in Hnil. lia. }
  destruct data1 as [|first rest] eqn:Hd.
  - rewrite (Hdata1 eq_refl) in *.
    destruct (Z.ltb_spec (dataLineCountOf dataLineLength rawData dataCountLimit) 0);
      [lia|].
    fold count. rewrite (Hdata1 eq_refl). reflexivity.
  - rewrite Hsame. reflexivity.
Qed.

End RawDataFacts.


Section ReportFacts.
Context `{BuoyCollaborators} `{MergeCollaborators}.

Lemma at_within (raw : list string) (i : nat) :
  (i < length raw)%nat -> at_ (Some raw) i = Done (nth i raw "").
Proof.
  intros Hi. unfold at_, index.
  destruct (raw !! i) as [field|] eqn:Hfield.
  - rewrite (nth_lookup_Some _ _ _ _ Hfield). reflexivity.
  - apply lookup_ge_None in Hfield. lia.
Qed.

Lemma readStandardLine_within (raw : list string) (line : nat) :
  ((line + 1) * 19 <= length raw)%nat ->
  exists item, readStandardLine (Some raw) (line * 19) = Done item.
Proof.
  intros Hin. unfold readStandardLine.
  rewrite !at_within by lia. eexists. reflexivity.
Qed.

Lemma readDetailedLine_within (raw : list string) (line : nat) :
  ((line + 1) * 15 <= length raw)%nat ->
  exists item, readDetailedLine (Some raw) (line * 15) = Done item.
Proof.
  intros Hin. unfold readDetailedLine.
  rewrite !at_within by lia. eexists. reflexivity.
Qed.

Ltac read_fields :=
  repeat match goal with
  | |- context [at_ ?s ?i] => destruct (at_ s i); simpl; [|discriminate]
  end.

(** A reading of the standard report has no steepness. *)
Lemma readStandardLine_Steepness (rawData : slice string) (lineBeginIndex : nat)
    (item : BuoyItem.t) :
  readStandardLine rawData lineBeginIndex = Done item ->
  BuoyItem.Steepness item = "".
Proof.
  unfold readStandardLine. read_fields. intros [= <-]. reflexivity.
Qed.

Lemma standard_reading_not_merged (rawData : slice string) (line : nat) :
  (0 <? String.length
          (BuoyItem.Steepness (readingAt 19 readStandardLine rawData line)))%nat
  = false.
Proof.
  unfold readingAt.
  destruct (readStandardLine rawData (line * 19)) as [item|c] eqn:Hitem.
  - rewrite (readStandardLine_Steepness _ _ _ Hitem). reflexivity.
  - reflexivity.
Qed.

(** X11: the standard report never fails on an index: the call crashes in
    [make] exactly when the series is nil or empty and the report has
    fewer than 38 fields, and otherwise returns the nil error and leaves
    every field of the buoy but the series as it was. *)
Theorem standard_report_crashes_only_in_make (b : Buoy.t)
    (rawData : slice string) (dataCountLimit : Z) :
  match ParseRawStandardData b rawData dataCountLimit with
  | Crashed c =>
      c = MakeSliceLenOutOfRange /\ len (Buoy.BuoyData b) = 0%nat /\
      (len rawData < 38)%nat
  | Done (b', err) =>
      err = None /\ b' = Buoy.set_BuoyData (Buoy.BuoyData b') b /\
      ~ (len (Buoy.BuoyData b) = 0%nat /\ (len rawData < 38)%nat)
  end.
Proof.
  apply (parseRawData_outcome 19 readStandardLine); [lia|].
  apply readStandardLine_within.
Qed.

(** X12: the standard report parsed into a nil or empty series: the series
    gets as many observations as the line count says (the lines of the
    report less two, or the limit when that is smaller and not
    negative); they are the readings of the lines 2, 3, ... of the
    report, two fewer than the count, and then zero observations. *)
Theorem standard_report_into_empty_series (b : Buoy.t)
    (rawData : slice string) (dataCountLimit : Z) :
  len (Buoy.BuoyData b) = 0%nat ->
  (38 <= len rawData)%nat ->
  let count := Z.to_nat (dataLineCountOf 19 rawData dataCountLimit) in
  ParseRawStandardData b rawData dataCountLimit
  = Done (Buoy.set_BuoyData
            (Some ((readingAt 19 readStandardLine rawData <$> seq 2 (count - 2))
                   ++ replicate (Nat.min count 2) BuoyItem.zeroValue)) b,
          None).
Proof.
  intros Hempty Hlong.
  apply (parseRawData_empty 19 readStandardLine); try assumption;
    [lia|apply readStandardLine_within|reflexivity].
Qed.

(** X13: the standard report parsed into a series that holds observations:
    with [n] the line count less two, the observation at an index below
    [n] is replaced by the reading of the line two further on, unless
    its steepness is set, in which case [MergeStandardDataReading]
    merges the reading into it; an index past the end of the series gets
    the reading; the observations from [n] on stay. *)
Theorem standard_report_into_series (b : Buoy.t) (rawData : slice string)
    (dataCountLimit : Z) (data : list BuoyItem.t) :
  Buoy.BuoyData b = Some data -> data <> [] ->
  let n := Z.to_nat (dataLineCountOf 19 rawData dataCountLimit - 2) in
  exists data',
    ParseRawStandardData b rawData dataCountLimit
    = Done (Buoy.set_BuoyData (Some data') b, None) /\
    length data' = Nat.max (length data) n /\
    (forall k, (k < n)%nat ->
       data' !! k
       = Some (match data !! k with
               | Some existing =>
                   if (0 <? String.length (BuoyItem.Steepness existing))%nat
                   then MergeStandardDataReading existing
                          (readingAt 19 readStandardLine rawData (2 + k))
                   else readingAt 19 readStandardLine rawData (2 + k)
               | None => readingAt 19 readStandardLine rawData (2 + k)
               end)) /\
    (forall k, (n <= k)%nat -> data' !! k = data !! k).
Proof.
  intros Hdata Hne.
  apply (parseRawData_update 19 readStandardLine); try assumption;
    [lia|apply readStandardLine_within].
Qed.

(** X14: the standard report parsed into a nil or empty series and then
    parsed again, with the same limit, leaves the buoy as the first
    parse left it. *)
Theorem standard_report_twice_is_once (b b1 : Buoy.t) (rawData : slice string)
    (dataCountLimit : Z) (err : option string) :
  len (Buoy.BuoyData b) = 0%nat ->
  ParseRawStandardData b rawData dataCountLimit = Done (b1, err) ->
  ParseRawStandardData b1 rawData dataCountLimit = Done (b1, err).
Proof.
  intros Hempty Hfirst.
  apply (parseRawData_twice 19 readStandardLine) with (b := b);
    try assumption;
    [lia|apply readStandardLine_within
    |apply standard_reading_not_merged|reflexivity].
Qed.

(** X15: the detailed report never fails on an index: the call crashes in
    [make] exactly when the series is nil or empty and the report has
    fewer than 30 fields, and otherwise returns the nil error and leaves
    every field of the buoy but the series as it was. *)
Theorem detailed_report_crashes_only_in_make (b : Buoy.t)
    (rawData : slice string) (dataCountLimit : Z) :
  match ParseRawDetailedWaveData b rawData dataCountLimit with
  | Crashed c =>
      c = MakeSliceLenOutOfRange /\ len (Buoy.BuoyData b) = 0%nat /\
      (len rawData < 30)%nat
  | Done (b', err) =>
      err = None /\ b' = Buoy.set_BuoyData (Buoy.BuoyData b') b /\
      ~ (len (Buoy.BuoyData b) = 0%nat /\ (len rawData < 30)%nat)
  end.
Proof.
  apply (parseRawData_outcome 15 readDetailedLine); [lia|].
  apply readDetailedLine_within.
Qed.

(** X16: the detailed report parsed into a nil or empty series: as many
    observations as the line count says, the readings of the lines 2,
    3, ... of the report, two fewer than the count, and then zero
    observations. *)
Theorem detailed_report_into_empty_series (b : Buoy.t)
    (rawData : slice string) (dataCountLimit : Z) :
  len (Buoy.BuoyData b) = 0%nat ->
  (30 <= len rawData)%nat ->
  let count := Z.to_nat (dataLineCountOf 15 rawData dataCountLimit) in
  ParseRawDetailedWaveData b rawData dataCountLimit
  = Done (Buoy.set_BuoyData
            (Some ((readingAt 15 readDetailedLine rawData <$> seq 2 (count - 2))
                   ++ replicate (Nat.min count 2) BuoyItem.zeroValue)) b,
          None).
Proof.
  intros Hempty Hlong.
  apply (parseRawData_empty 15 readDetailedLine); try assumption;
    [lia|apply readDetailedLine_within|reflexivity].
Qed.

(** X17: the detailed report parsed into a series that holds observations:
    the observation at an index below [n], the line count less two, is
    replaced by the reading of the line two further on (whatever it
    held) unless its dominant wave period is above 0, in which case
    [MergeDetailedWaveDataReading] merges the reading into it; an index
    past the end of the series gets the reading; the observations from
    [n] on stay. *)
Theorem detailed_report_into_series (b : Buoy.t) (rawData : slice string)
    (dataCountLimit : Z) (data : list BuoyItem.t) :
  Buoy.BuoyData b = Some data -> data <> [] ->
  let n := Z.to_nat (dataLineCountOf 15 rawData dataCountLimit - 2) in
  exists data',
    ParseRawDetailedWaveData b rawData dataCountLimit
    = Done (Buoy.set_BuoyData (Some data') b, None) /\
    length data' = Nat.max (length data) n /\
    (forall k, (k < n)%nat ->
       data' !! k
       = Some (match data !! k with
               | Some existing =>
                   if gt (BuoyItem.DominantWavePeriod existing) zero
                   then MergeDetailedWaveDataReading existing
                          (readingAt 15 readDetailedLine rawData (2 + k))
                   else readingAt 15 readDetailedLine rawData (2 + k)
               | None => readingAt 15 readDetailedLine rawData (2 + k)
               end)) /\
    (forall k, (n <= k)%nat -> data' !! k = data !! k).
Proof.
  intros Hdata Hne.
  apply (parseRawData_update 15 readDetailedLine); try assumption;
    [lia|apply readDetailedLine_within].
Qed.

End ReportFacts.


(** ** More about the synthesis (surfforecast.go) *)

Section SynthesisMore.
Context `{SurfCollaborators}.

(** With a wind series that is nil, empty or at least as long as the
    wave series, every iteration of the loop returns. *)
Lemma forecastItemAt_returns sf wave wind ws j :
  WaveForecast.ForecastData wave = Some ws -> (j < length ws)%nat ->
  (len (WindForecast.ForecastData wind) = 0%nat \/
   (length ws <= len (WindForecast.ForecastData wind))%nat) ->
  exists item,
    forecastItemAt sf wave wind (noWindDataOf wind) j = Returned item.
Proof.
  intros Hws Hj Hwind.
  destruct (lookup_lt_is_Some_2 ws j Hj) as [w Hw].
  destruct (noWindDataOf wind) eqn:Hnw.
  - eexists. eapply forecastItemAt_fallback; eassumption.
  - assert (Hlen : len (WindForecast.ForecastData wind) <> 0%nat).
    { intros Hzero%noWindDataOf_true. congruence. }
    destruct Hwind as [Hzero|Hlong]; [contradiction|].
    destruct (WindForecast.ForecastData wind) as [vs|] eqn:Hvs;
      [|simpl in Hlen; contradiction].
    simpl in Hlong.
    destruct (lookup_lt_is_Some_2 vs j) as [v Hv]; [lia|].
    eexists. eapply forecastItemAt_model; eassumption.
Qed.

(** X1: the three outcomes of a call with two forecasts, told apart by the
    lengths of the two series as the call reads them (after the
    conversion to metric units): nil for a wave series without records;
    a panic, on the index just past the wind series, for a wind series
    that has records but fewer than the wave series; and otherwise a
    forecast with one item for each wave record. *)
Theorem NewSurfForecast_outcome loc beachAngle beachSlope wave wind :
  let waves := len (WaveForecast.ForecastData (waveInMetric wave)) in
  let winds := len (WindForecast.ForecastData (windInMetric wind)) in
  match result (NewSurfForecast loc beachAngle beachSlope (Some wave) (Some wind)) with
  | Returned None => waves = 0%nat
  | Returned (Some sf) =>
      (0 < waves)%nat /\ (winds = 0%nat \/ (waves <= winds)%nat) /\
      len (SurfForecast.ForecastData sf) = waves
  | Panicked p =>
      (0 < winds < waves)%nat /\ p = IndexOutOfRange winds winds
  end.
Proof.
  cbv zeta. cbn [NewSurfForecast result].
  set (wave' := waveInMetric wave). set (wind' := windInMetric wind).
  destruct (decide (len (WaveForecast.ForecastData wave') = 0%nat))
    as [Hnone|Hsome].
  - rewrite (proj2 (synthesize_nil loc beachAngle beachSlope wave' wind') Hnone).
    exact Hnone.
  - destruct (WaveForecast.ForecastData wave') as [ws|] eqn:Hws;
      [|simpl in Hsome; contradiction].
    cbn [len] in *.
    assert (Hne : ws <> []) by (intros ->; simpl in Hsome; lia).
    destruct (decide (len (WindForecast.ForecastData wind') = 0%nat \/
                      (length ws <= len (WindForecast.ForecastData wind'))%nat))
      as [Hfine|Hshort].
    + set (sf0 := emptySurfForecast loc beachAngle beachSlope wave' wind').
      rewrite (synthesize_all_returned _ _ _ _ _ ws
                 (itemOrZero sf0 wave' wind' (noWindDataOf wind')) Hws Hne).
      * cbn [withForecastData SurfForecast.ForecastData len].
        rewrite length_fmap, length_seq. repeat split; try lia; exact Hfine.
      * intros j Hj.
        destruct (forecastItemAt_returns sf0 wave' wind' ws j Hws Hj Hfine)
          as [item Hitem].
        unfold itemOrZero. fold sf0. rewrite Hitem. reflexivity.
    + destruct (WindForecast.ForecastData wind') as [vs|] eqn:Hvs;
        [|simpl in Hshort; lia].
      cbn [len] in *.
      rewrite (synthesize_short_wind _ _ _ _ _ ws vs Hws Hvs) by lia.
      split; [lia|reflexivity].
Qed.

(** A returned forecast has as many items as the wave series has
    records. *)
Lemma returned_items_length loc beachAngle beachSlope wave wind sf :
  result (NewSurfForecast loc beachAngle beachSlope (Some wave) (Some wind))
    = Returned (Some sf) ->
  len (SurfForecast.ForecastData sf)
  = len (WaveForecast.ForecastData (waveInMetric wave)).
Proof.
  cbn [NewSurfForecast result]. intros Hr.
  destruct (synthesize_returned _ _ _ _ _ _ Hr) as (ws' & Hws & _ & Hsf & _).
  rewrite Hsf, Hws. cbn [withForecastData SurfForecast.ForecastData len].
  rewrite length_fmap, length_seq. reflexivity.
Qed.

(** The shape of an item of a returned forecast: the new item with the
    date and time of the wave record at its index, some wind fields put
    in, and the swells ranked. *)
Lemma returned_item_shape loc beachAngle beachSlope wave wind sf items i item :
  result (NewSurfForecast loc beachAngle beachSlope (Some wave) (Some wind))
    = Returned (Some sf) ->
  SurfForecast.ForecastData sf = Some items ->
  items !! i = Some item ->
  exists ws w speed gust direction,
    WaveForecast.ForecastData (waveInMetric wave) = Some ws /\
    ws !! i = Some w /\
    item = withRankedSwells sf w
             (setWind (datedItem w) speed gust direction
                (DegreeToDirection direction)).
Proof.
  intros Hr Hitems Hi.
  destruct (NewSurfForecast_item _ _ _ _ _ _ _ _ _ Hr Hitems Hi)
    as (ws & w & Hws & Hw & [[_ ->]|[_ (vs & v & _ & _ & ->)]]);
    exists ws, w; do 3 eexists; (split; [exact Hws|]); (split; [exact Hw|]);
    reflexivity.
Qed.

(** X2: one item for each wave record, in the order of the records, each
    with the date and time of its record. *)
Theorem items_follow_the_wave_records
    loc beachAngle beachSlope wave wind sf items ws :
  result (NewSurfForecast loc beachAngle beachSlope (Some wave) (Some wind))
    = Returned (Some sf) ->
  SurfForecast.ForecastData sf = Some items ->
  WaveForecast.ForecastData (waveInMetric wave) = Some ws ->
  length items = length ws /\
  forall i item w, items !! i = Some item -> ws !! i = Some w ->
    SurfForecastItem.Date item = WaveForecastItem.Date w /\
    SurfForecastItem.Time item = WaveForecastItem.Time w.
Proof.
  intros Hr Hitems Hws. split.
  - pose proof (returned_items_length _ _ _ _ _ _ Hr) as Hlen.
    rewrite Hitems, Hws in Hlen. exact Hlen.
  - intros i item w Hi Hw.
    destruct (returned_item_shape _ _ _ _ _ _ _ _ _ Hr Hitems Hi)
      as (ws' & w' & speed & gust & direction & Hws' & Hw' & ->).
    rewrite Hws in Hws'. injection Hws' as <-.
    rewrite Hw in Hw'. injection Hw' as <-.
    unfold withRankedSwells, rankSwells. cbv zeta.
    repeat match goal with |- context [gt ?a ?b] => destruct (gt a b) end;
      simpl; auto.
Qed.

(** X3: every compass direction of an item of a returned forecast is the
    compass direction of the degrees next to it: for the wind and for
    each of the three swells. *)
Theorem compass_directions_agree_with_degrees
    loc beachAngle beachSlope wave wind sf items i item :
  result (NewSurfForecast loc beachAngle beachSlope (Some wave) (Some wind))
    = Returned (Some sf) ->
  SurfForecast.ForecastData sf = Some items ->
  items !! i = Some item ->
  SurfForecastItem.WindCompassDirection item
    = DegreeToDirection (SurfForecastItem.WindDirection item) /\
  (forall s,
     s = SurfForecastItem.PrimarySwellComponent item \/
     s = SurfForecastItem.SecondarySwellComponent item \/
     s = SurfForecastItem.TertiarySwellComponent item ->
     Swell.CompassDirection s = DegreeToDirection (Swell.Direction s)).
Proof.
  intros Hr Hitems Hi.
  destruct (returned_item_shape _ _ _ _ _ _ _ _ _ Hr Hitems Hi)
    as (ws & w & speed & gust & direction & _ & _ & ->).
  unfold withRankedSwells, rankSwells. cbv zeta.
  repeat match goal with |- context [gt ?a ?b] => destruct (gt a b) end;
    simpl; (split; [reflexivity|]); intros s Hs;
    destruct Hs as [Hs|[Hs|Hs]]; subst s; reflexivity.
Qed.

(** X4: the breaking heights of an item of a returned forecast are those of
    its primary swell: what [BreakingWaveHeights] gives for that swell at
    the beach angle and slope of the forecast and at the elevation of
    the wave model's location. *)
Theorem breaking_heights_are_those_of_the_primary_swell
    loc beachAngle beachSlope wave wind sf items i item :
  result (NewSurfForecast loc beachAngle beachSlope (Some wave) (Some wind))
    = Returned (Some sf) ->
  SurfForecast.ForecastData sf = Some items ->
  items !! i = Some item ->
  (SurfForecastItem.MinimumBreakingHeight item,
   SurfForecastItem.MaximumBreakingHeight item)
  = BreakingWaveHeights (SurfForecastItem.PrimarySwellComponent item)
      beachAngle
      (Location.Elevation (WaveForecast.Location (waveInMetric wave)))
      beachSlope.
Proof.
  intros Hr Hitems Hi.
  destruct (returned_item_shape _ _ _ _ _ _ _ _ _ Hr Hitems Hi)
    as (ws & w & speed & gust & direction & _ & _ & ->).
  cbn [NewSurfForecast result] in Hr.
  destruct (synthesize_returned _ _ _ _ _ _ Hr) as (ws' & _ & _ & -> & _).
  unfold withRankedSwells, rankSwells. cbv zeta.
  repeat match goal with |- context [gt ?a ?b] => destruct (gt a b) end;
    simpl; symmetry; apply surjective_pairing.
Qed.

(** X5: what a returned forecast says about itself: the location and the
    beach of the call, and the models and model locations of the two
    forecasts as the call left them. *)
Theorem returned_forecast_metadata loc beachAngle beachSlope wave wind sf :
  result (NewSurfForecast loc beachAngle beachSlope (Some wave) (Some wind))
    = Returned (Some sf) ->
  SurfForecast.Location sf = loc /\
  SurfForecast.BeachAngle sf = beachAngle /\
  SurfForecast.BeachSlope sf = beachSlope /\
  SurfForecast.WaveModel sf = WaveForecast.Model (waveInMetric wave) /\
  SurfForecast.WaveModelLocation sf = WaveForecast.Location (waveInMetric wave) /\
  SurfForecast.WindModel sf = WindForecast.Model (windInMetric wind) /\
  SurfForecast.WindModelLocation sf = WindForecast.Location (windInMetric wind).
Proof.
  cbn [NewSurfForecast result]. intros Hr.
  destruct (synthesize_returned _ _ _ _ _ _ Hr) as (ws' & _ & _ & -> & _).
  repeat split.
Qed.

(** X6: [ChangeUnits] leaves the forecast in the units asked for, with as
    many items as before, and asking again for the same units changes
    nothing more. *)
Theorem ChangeUnits_settles (s : SurfForecast.t) (newUnits : UnitSystem) :
  let changed := ChangeUnits s newUnits in
  SurfForecast.Units changed = newUnits /\
  len (SurfForecast.ForecastData changed) = len (SurfForecast.ForecastData s) /\
  ChangeUnits changed newUnits = changed.
Proof.
  intros changed.
  assert (Hunits : SurfForecast.Units changed = newUnits).
  { unfold changed, ChangeUnits.
    destruct (decide (SurfForecast.Units s = newUnits)); [assumption|reflexivity]. }
  split; [exact Hunits|]. split.
  - unfold changed, ChangeUnits.
    destruct (decide (SurfForecast.Units s = newUnits)); [reflexivity|].
    simpl. destruct (SurfForecast.ForecastData s); simpl;
      [rewrite length_map|]; reflexivity.
  - unfold ChangeUnits at 1.
    destruct (decide (SurfForecast.Units changed = newUnits));
      [reflexivity|contradiction].
Qed.

End SynthesisMore.


(** ** More about the latest report (buoy.go, buoyitem.go) *)

Lemma strings_Split_length (s : string) (sep : ascii) :
  length (strings_Split s sep) = S (occurrences sep s).
Proof.
  induction s as [|c rest IH]; [reflexivity|].
  simpl. destruct (Ascii.eqb c sep).
  - simpl. rewrite IH. reflexivity.
  - destruct (strings_Split rest sep) as [|piece pieces]; [discriminate|].
    simpl in *. exact IH.
Qed.

Section LatestReportMore.
Context `{BuoyCollaborators}.

Ltac line_cases :=
  unfold parseLatestLine; cbn [negb];
  repeat match goal with
  | |- context [if ?c then _ else _] => destruct c
  end.

Lemma parseLatestLine_unread item p d line :
  sameUnreadFields (fst (fst (parseLatestLine (item, p, d) line))) item.
Proof.
  line_cases; destruct item; simpl; repeat split.
Qed.

(** X8: the wind readings, the average period, the mean and the dominant
    wave direction, the steepness, the visibility, the pressure
    tendency, the water level and the two time fields are never set by
    the lines of a latest report, whatever the lines say. *)
Theorem latest_lines_leave_unread_fields (lines : list string)
    (item : BuoyItem.t) (swellPeriodRead swellDirectionRead : bool) :
  sameUnreadFields
    (fst (fst (fold_left parseLatestLine lines
                 (item, swellPeriodRead, swellDirectionRead))))
    item.
Proof.
  revert item swellPeriodRead swellDirectionRead.
  induction lines as [|line lines IH]; intros item p d.
  - simpl. repeat split.
  - cbn [fold_left].
    destruct (parseLatestLine (item, p, d) line) as [[item' p'] d'] eqn:Hline.
    pose proof (parseLatestLine_unread item p d line) as Hstep.
    rewrite Hline in Hstep. simpl in Hstep.
    specialize (IH item' p' d'). unfold sameUnreadFields in *.
    repeat match goal with
    | Hc : _ /\ _ |- _ => destruct Hc
    end.
    repeat split; etransitivity; eassumption.
Qed.

Lemma strings_Split_cons (s : string) (sep : ascii) :
  exists piece pieces, strings_Split s sep = piece :: pieces.
Proof.
  pose proof (strings_Split_length s sep) as Hlen.
  destruct (strings_Split s sep) as [|piece pieces]; [discriminate|eauto].
Qed.

(** X7: how the call ends: with the error, and the buoy untouched, exactly
    when the report has fewer than five newline characters (fewer than
    six lines); otherwise without error, with a series of one
    observation if it was nil or empty and of as many as before if not,
    with all observations but the first as they were, and with every
    other field of the buoy as it was. *)
Theorem latest_report_outcome (b : Buoy.t) (rawBuoyData : string) :
  match ParseRawLatestBuoyData b rawBuoyData with
  | (b', Some _) =>
      (occurrences newline rawBuoyData < 5)%nat /\ b' = b
  | (b', None) =>
      (5 <= occurrences newline rawBuoyData)%nat /\
      len (Buoy.BuoyData b') = Nat.max 1 (len (Buoy.BuoyData b)) /\
      (forall data data' i, Buoy.BuoyData b = Some data ->
         Buoy.BuoyData b' = Some data' -> (1 <= i)%nat ->
         data' !! i = data !! i) /\
      b' = Buoy.set_BuoyData (Buoy.BuoyData b') b
  end.
Proof.
  unfold ParseRawLatestBuoyData, parseLatestBuoyItem.
  rewrite strings_Split_length.
  destruct (S (occurrences newline rawBuoyData) <? 6)%nat eqn:Hlines.
  - apply Nat.ltb_lt in Hlines. split; [lia|reflexivity].
  - apply Nat.ltb_ge in Hlines.
    destruct (fold_left parseLatestLine _ _) as [[item p] d].
    destruct (Buoy.BuoyData b) as [[|first rest]|] eqn:Hdata; simpl;
      (split; [lia|]); (split; [reflexivity|]); (split; [|reflexivity]).
    + intros data data' i [= <-] [= <-] Hi. destruct i; [lia|reflexivity].
    + intros data data' i [= <-] [= <-] Hi. destruct i; [lia|reflexivity].
    + intros data data' i [=].
Qed.

(** X9: the two period lines of a latest report are told apart by their
    position only. A line [Period:...] read before any other period
    line sets the swell period and marks it read; read after one, it
    sets the wind swell period. And once the swell period is marked
    read, no line whatever changes it or clears the mark. *)
Theorem period_lines_by_position :
  (forall item d afterColon,
     parseLatestLine (item, false, d) ("Period:" ++ afterColon)
     = (BuoyItem.set_SwellWavePeriod
          (strconv_ParseFloat (rawValueOf afterColon)) item, true, d)) /\
  (forall item d afterColon,
     parseLatestLine (item, true, d) ("Period:" ++ afterColon)
     = (BuoyItem.set_WindSwellWavePeriod
          (strconv_ParseFloat (rawValueOf afterColon)) item, true, d)) /\
  (forall lines item d,
     let '(item', swellPeriodRead, _) :=
       fold_left parseLatestLine lines (item, true, d) in
     swellPeriodRead = true /\
     BuoyItem.SwellWavePeriod item' = BuoyItem.SwellWavePeriod item).
Proof.
  split; [|split].
  - intros item d afterColon. unfold parseLatestLine, rawValueOf.
    cbn [strings_Split String.append Ascii.eqb Bool.eqb].
    destruct (strings_Split_cons afterColon ":") as (piece & pieces & ->).
    reflexivity.
  - intros item d afterColon. unfold parseLatestLine, rawValueOf.
    cbn [strings_Split String.append Ascii.eqb Bool.eqb].
    destruct (strings_Split_cons afterColon ":") as (piece & pieces & ->).
    reflexivity.
  - induction lines as [|line lines IH]; intros item d.
    + simpl. split; reflexivity.
    + cbn [fold_left].
      assert (Hstep : exists item' d',
                parseLatestLine (item, true, d) line = (item', true, d') /\
                BuoyItem.SwellWavePeriod item' = BuoyItem.SwellWavePeriod item).
      { line_cases; do 2 eexists; (split; [reflexivity|]);
          destruct item; reflexivity. }
      destruct Hstep as (item' & d' & -> & Hkept).
      specialize (IH item' d').
      destruct (fold_left parseLatestLine lines (item', true, d'))
        as [[item'' p''] d''].
      destruct IH as [-> Hkept']. split; [reflexivity|]. congruence.
Qed.

(** X10: the same for the two direction lines: the first [Direction:...]
    line sets the swell direction, a later one the wind swell direction,
    and once the swell direction is marked read no line changes it. *)
Theorem direction_lines_by_position :
  (forall item p afterColon,
     parseLatestLine (item, p, false) ("Direction:" ++ afterColon)
     = (BuoyItem.set_SwellWaveDirection (rawValueOf afterColon) item, p, true)) /\
  (forall item p afterColon,
     parseLatestLine (item, p, true) ("Direction:" ++ afterColon)
     = (BuoyItem.set_WindSwellDirection (rawValueOf afterColon) item, p, true)) /\
  (forall lines item p,
     let '(item', _, swellDirectionRead) :=
       fold_left parseLatestLine lines (item, p, true) in
     swellDirectionRead = true /\
     BuoyItem.SwellWaveDirection item' = BuoyItem.SwellWaveDirection item).
Proof.
  split; [|split].
  - intros item p afterColon. unfold parseLatestLine, rawValueOf.
    cbn [strings_Split String.append Ascii.eqb Bool.eqb].
    destruct (strings_Split_cons afterColon ":") as (piece & pieces & ->).
    reflexivity.
  - intros item p afterColon. unfold parseLatestLine, rawValueOf.
    cbn [strings_Split String.append Ascii.eqb Bool.eqb].
    destruct (strings_Split_cons afterColon ":") as (piece & pieces & ->).
    reflexivity.
  - induction lines as [|line lines IH]; intros item p.
    + simpl. split; reflexivity.
    + cbn [fold_left].
      assert (Hstep : exists item' p',
                parseLatestLine (item, p, true) line = (item', p', true) /\
                BuoyItem.SwellWaveDirection item' = BuoyItem.SwellWaveDirection item).
      { line_cases; do 2 eexists; (split; [reflexivity|]);
          destruct item; reflexivity. }
      destruct Hstep as (item' & p' & -> & Hkept).
      specialize (IH item' p').
      destruct (fold_left parseLatestLine lines (item', p', true))
        as [[item'' p''] d''].
      destruct IH as [-> Hkept']. split; [reflexivity|]. congruence.
Qed.

End LatestReportMore.


(** ** Distances between locations (location.go) *)

Lemma abs_binary_round_aux (s : bool) (mx ex : Z) (lx : location) :
  abs (binary_round_aux prec emax s mx ex lx)
  = abs (binary_round_aux prec emax false mx ex lx).
Proof.
  unfold binary_round_aux.
  destruct (shr_fexp prec emax mx ex lx) as [mrs' e'].
  destruct (shr_fexp prec emax _ e' loc_Exact) as [mrs'' e''].
  destruct (shr_m mrs''); [reflexivity| |reflexivity].
  destruct (e'' <=? emax - prec)%Z; reflexivity.
Qed.

Lemma abs_binary_normalize_opp (m e : Z) :
  abs (binary_normalize prec emax (- m) e false)
  = abs (binary_normalize prec emax m e false).
Proof.
  destruct m as [|p|p]; [reflexivity| |]; simpl; unfold binary_round;
    destruct (shl_align _ _ _) as [mz ez];
    first [apply abs_binary_round_aux | symmetry; apply abs_binary_round_aux].
Qed.

(** [|x - y| = |y - x|] for all float64 values. *)
Lemma abs_sub64_sym (x y : float64) : abs (sub64 x y) = abs (sub64 y x).
Proof.
  unfold sub64, SFsub.
  destruct x as [sx|sx| |sx mx ex], y as [sy|sy| |sy my ey];
    try reflexivity;
    try (destruct sx, sy; reflexivity).
  rewrite (Z.min_comm ey ex).
  set (ez := Z.min ex ey).
  set (a := cond_Zopp sx (Z.pos (fst (shl_align mx ex ez)))).
  set (c := cond_Zopp sy (Z.pos (fst (shl_align my ey ez)))).
  replace (c - a) with (- (a - c)) by lia.
  symmetry. apply abs_binary_normalize_opp.
Qed.

(** X18: the distance components between two locations do not depend on
    which of the two is asked. *)
Theorem ComponentDistanceTo_symmetric (l otherLoc : Location.t) :
  ComponentDistanceTo l otherLoc = ComponentDistanceTo otherLoc l.
Proof.
  unfold ComponentDistanceTo. f_equal; apply abs_sub64_sym.
Qed.

(** X19: the distance between two locations does not depend on which of
    the two is asked, whatever [math.Sqrt] and [math.Pow] compute. *)
Theorem DistanceTo_symmetric `{MathCollaborators} (l otherLoc : Location.t) :
  DistanceTo l otherLoc = DistanceTo otherLoc l.
Proof.
  unfold DistanceTo, ComponentDistanceTo.
  rewrite (abs_sub64_sym (Location.Latitude l)),
          (abs_sub64_sym (Location.Longitude l)).
  reflexivity.
Qed.

Lemma sub64_self (x : float64) : isFinite x = true -> sub64 x x = zero.
Proof.
  unfold sub64, SFsub, zero.
  destruct x as [[]|[]| |s m e]; try discriminate; try reflexivity.
  intros _. rewrite Z.sub_diag. reflexivity.
Qed.

(** X20: from a location with finite coordinates to itself both distance
    components are +0; with an infinite or NaN coordinate that
    component is NaN. *)
Theorem ComponentDistanceTo_self (l : Location.t) :
  (isFinite (Location.Latitude l) = true ->
   fst (ComponentDistanceTo l l) = zero) /\
  (isFinite (Location.Longitude l) = true ->
   snd (ComponentDistanceTo l l) = zero) /\
  (isFinite (Location.Latitude l) = false ->
   fst (ComponentDistanceTo l l) = S754_nan) /\
  (isFinite (Location.Longitude l) = false ->
   snd (ComponentDistanceTo l l) = S754_nan).
Proof.
  unfold ComponentDistanceTo. simpl. repeat split.
  - intros Hf. rewrite (sub64_self _ Hf). reflexivity.
  - intros Hf. rewrite (sub64_self _ Hf). reflexivity.
  - destruct (Location.Latitude l) as [[]|[]| |s m e]; try discriminate; reflexivity.
  - destruct (Location.Longitude l) as [[]|[]| |s m e]; try discriminate; reflexivity.
Qed.

(** ** The addresses of a buoy's reports (buoy.go, lines 95-115) *)

Lemma append_cancel_l (p s t : string) : (p ++ s = p ++ t)%string -> s = t.
Proof.
  induction p as [|c p IH]; simpl; [auto|].
  intros [= Heq]. auto.
Qed.

Lemma append_length (s t : string) :
  String.length (s ++ t)%string = (String.length s + String.length t)%nat.
Proof. induction s as [|c s IH]; simpl; [reflexivity|]. rewrite IH. reflexivity. Qed.

Lemma append_cancel_r (s t u : string) : (s ++ u = t ++ u)%string -> s = t.
Proof.
  revert t. induction s as [|c s IH]; intros [|c' t] Heq.
  - reflexivity.
  - exfalso. apply (f_equal String.length) in Heq.
    simpl in Heq. rewrite append_length in Heq. lia.
  - exfalso. apply (f_equal String.length) in Heq.
    simpl in Heq. rewrite append_length in Heq. lia.
  - simpl in Heq. injection Heq as -> Heq. f_equal. apply IH. exact Heq.
Qed.

Ltac peel_prefix H :=
  repeat match type of H with
  | String _ _ = String _ _ => injection H as H
  end.

(** X21: each of the four addresses tells the station: two buoys with one
    of the addresses in common have the same station id. And the four
    addresses of one buoy differ from each other. *)
Theorem report_addresses_tell_station_and_report (b1 b2 : Buoy.t) :
  (CreateLatestReadingURL b1 = CreateLatestReadingURL b2 ->
   Buoy.StationID b1 = Buoy.StationID b2) /\
  (CreateStandardDataURL b1 = CreateStandardDataURL b2 ->
   Buoy.StationID b1 = Buoy.StationID b2) /\
  (CreateDetailedWaveDataURL b1 = CreateDetailedWaveDataURL b2 ->
   Buoy.StationID b1 = Buoy.StationID b2) /\
  (CreateSpectraPlotURL b1 = CreateSpectraPlotURL b2 ->
   Buoy.StationID b1 = Buoy.StationID b2) /\
  CreateLatestReadingURL b1 <> CreateStandardDataURL b1 /\
  CreateLatestReadingURL b1 <> CreateDetailedWaveDataURL b1 /\
  CreateLatestReadingURL b1 <> CreateSpectraPlotURL b1 /\
  CreateStandardDataURL b1 <> CreateDetailedWaveDataURL b1 /\
  CreateStandardDataURL b1 <> CreateSpectraPlotURL b1 /\
  CreateDetailedWaveDataURL b1 <> CreateSpectraPlotURL b1.
Proof.
  unfold CreateLatestReadingURL, CreateStandardDataURL,
    CreateDetailedWaveDataURL, CreateSpectraPlotURL.
  cbn [fmt_Sprintf baseLatestReadingURL baseDataURL baseSpectraPlotURL
       standardDataPostfix detailedWaveDataPostfix].
  repeat split; intros Heq; peel_prefix Heq;
    try discriminate;
    try (apply append_cancel_r in Heq; exact Heq);
    try (apply append_cancel_l in Heq; discriminate).
Qed.

(** ** The East Coast model (package wavewatch) *)

(** X22: the box of the model is open and finite: a location on one of its
    four edges is not contained, and neither is a location with a
    coordinate that is NaN or infinite. *)
Theorem ContainsLocation_excludes_border (loc : WaveWatch.Location) :
  (WaveWatch.Latitude loc = WaveWatch.Latitude WaveWatch.BottomLeftCoord \/
   WaveWatch.Latitude loc = WaveWatch.Latitude WaveWatch.TopRightCoord \/
   WaveWatch.Longitude loc = WaveWatch.Longitude WaveWatch.BottomLeftCoord \/
   WaveWatch.Longitude loc = WaveWatch.Longitude WaveWatch.TopRightCoord \/
   isFinite (WaveWatch.Latitude loc) = false \/
   isFinite (WaveWatch.Longitude loc) = false) ->
  WaveWatch.ContainsLocation loc = false.
Proof.
  unfold WaveWatch.ContainsLocation, gt.
  intros [Hb|[Hb|[Hb|[Hb|[Hb|Hb]]]]].
  - rewrite Hb, lt_irrefl. reflexivity.
  - rewrite Hb, lt_irrefl, andb_false_r. reflexivity.
  - rewrite Hb, lt_irrefl.
    destruct (_ && _); reflexivity.
  - rewrite Hb, lt_irrefl, andb_false_r.
    destruct (_ && _); reflexivity.
  - destruct (WaveWatch.Latitude loc) as [[]|[]| |s m e];
      try discriminate; reflexivity.
  - destruct (WaveWatch.Longitude loc) as [[]|[]| |s m e];
      try discriminate; destruct (_ && _); reflexivity.
Qed.


(** ** The further properties on sample data *)

Import MoreSamples.

(** X2 on sample data: the forecast for the sample wave forecast and a wind series of the
    same length: two items with the dates and times of the two records. *)
Lemma items_follow_the_wave_records_witness :
  exists sf items,
    result (NewSurfForecast (H := surfCollaborators)
              beach (of_Z 180) zero (Some waveForecast) (Some fullWind))
      = Returned (Some sf) /\
    SurfForecast.ForecastData sf = Some items /\
    length items = length [waveRecord; flatRecord] /\
    forall i item w,
      items !! i = Some item -> [waveRecord; flatRecord] !! i = Some w ->
      SurfForecastItem.Date item = WaveForecastItem.Date w /\
      SurfForecastItem.Time item = WaveForecastItem.Time w.
Proof.
  do 2 eexists. split; [reflexivity|]. split; [reflexivity|].
  apply (items_follow_the_wave_records (H := surfCollaborators)
           beach (of_Z 180) zero waveForecast fullWind _ _ _
           eq_refl eq_refl eq_refl).
Defined.

(** X3 on the sample data. *)
Lemma compass_directions_agree_with_degrees_witness :
  exists sf items item,
    result (NewSurfForecast (H := surfCollaborators)
              beach (of_Z 180) zero (Some waveForecast) (Some fullWind))
      = Returned (Some sf) /\
    SurfForecast.ForecastData sf = Some items /\
    items !! 0%nat = Some item /\
    SurfForecastItem.WindCompassDirection item
      = DegreeToDirection (SurfCollaborators := surfCollaborators)
          (SurfForecastItem.WindDirection item) /\
    (forall s,
       s = SurfForecastItem.PrimarySwellComponent item \/
       s = SurfForecastItem.SecondarySwellComponent item \/
       s = SurfForecastItem.TertiarySwellComponent item ->
       Swell.CompassDirection s
       = DegreeToDirection (SurfCollaborators := surfCollaborators)
           (Swell.Direction s)).
Proof.
  do 3 eexists. split; [reflexivity|]. split; [reflexivity|].
  split; [reflexivity|].
  apply (compass_directions_agree_with_degrees (H := surfCollaborators)
           beach (of_Z 180) zero waveForecast fullWind _ _ 0%nat _
           eq_refl eq_refl eq_refl).
Defined.

(** X4 on the sample data. *)
Lemma breaking_heights_are_those_of_the_primary_swell_witness :
  exists sf items item,
    result (NewSurfForecast (H := surfCollaborators)
              beach (of_Z 180) zero (Some waveForecast) (Some noWind))
      = Returned (Some sf) /\
    SurfForecast.ForecastData sf = Some items /\
    items !! 0%nat = Some item /\
    (SurfForecastItem.MinimumBreakingHeight item,
     SurfForecastItem.MaximumBreakingHeight item)
    = BreakingWaveHeights (SurfCollaborators := surfCollaborators)
        (SurfForecastItem.PrimarySwellComponent item)
        (of_Z 180)
        (Location.Elevation
           (WaveForecast.Location
              (waveInMetric (H := surfCollaborators) waveForecast)))
        zero.
Proof.
  do 3 eexists. split; [reflexivity|]. split; [reflexivity|].
  split; [reflexivity|].
  apply (breaking_heights_are_those_of_the_primary_swell
           (H := surfCollaborators)
           beach (of_Z 180) zero waveForecast noWind _ _ 0%nat _
           eq_refl eq_refl eq_refl).
Defined.

(** X5 on the sample data. *)
Lemma returned_forecast_metadata_witness :
  exists sf,
    result (NewSurfForecast (H := surfCollaborators)
              beach (of_Z 180) zero (Some englishWaveForecast) (Some noWind))
      = Returned (Some sf) /\
    SurfForecast.Location sf = beach /\
    SurfForecast.BeachAngle sf = of_Z 180 /\
    SurfForecast.BeachSlope sf = zero /\
    SurfForecast.WaveModel sf
      = WaveForecast.Model
          (waveInMetric (H := surfCollaborators) englishWaveForecast) /\
    SurfForecast.WaveModelLocation sf
      = WaveForecast.Location
          (waveInMetric (H := surfCollaborators) englishWaveForecast) /\
    SurfForecast.WindModel sf
      = WindForecast.Model (windInMetric (H := surfCollaborators) noWind) /\
    SurfForecast.WindModelLocation sf
      = WindForecast.Location (windInMetric (H := surfCollaborators) noWind).
Proof.
  eexists. split; [reflexivity|].
  apply (returned_forecast_metadata (H := surfCollaborators)
           beach (of_Z 180) zero englishWaveForecast noWind _ eq_refl).
Defined.

(** X12 on sample data: a standard report of six lines parsed into a buoy without
    observations: four observations, the readings of the lines 2 and 3
    and two zero observations. *)
Lemma standard_report_into_empty_series_witness :
  ParseRawStandardData (H := buoyCollaborators) (H0 := mergeCollaborators)
    (buoyWith None) (standardReport 6) (-1)
  = Done (Buoy.set_BuoyData
            (Some ((readingAt 19
                      (readStandardLine (H := buoyCollaborators))
                      (standardReport 6) <$> seq 2 (4 - 2))
                   ++ replicate (Nat.min 4 2) BuoyItem.zeroValue))
            (buoyWith None),
          None).
Proof.
  apply (standard_report_into_empty_series
           (H := buoyCollaborators) (H0 := mergeCollaborators)
           (buoyWith None) (standardReport 6) (-1)).
  - reflexivity.
  - vm_compute. lia.
Defined.

(** X13 on sample data: the same report parsed into a buoy with one observation whose
    steepness is not set. *)
Lemma standard_report_into_series_witness :
  let b := buoyWith (Some [olderObservation]) in
  exists data',
    ParseRawStandardData (H := buoyCollaborators) (H0 := mergeCollaborators)
      b (standardReport 6) (-1)
    = Done (Buoy.set_BuoyData (Some data') b, None) /\
    length data' = Nat.max (length [olderObservation]) 2 /\
    (forall k, (k < 2)%nat ->
       data' !! k
       = Some (match [olderObservation] !! k with
               | Some existing =>
                   if (0 <? String.length (BuoyItem.Steepness existing))%nat
                   then MergeStandardDataReading
                          (MergeCollaborators := mergeCollaborators) existing
                          (readingAt 19 (readStandardLine (H := buoyCollaborators))
                             (standardReport 6) (2 + k))
                   else readingAt 19 (readStandardLine (H := buoyCollaborators))
                          (standardReport 6) (2 + k)
               | None => readingAt 19 (readStandardLine (H := buoyCollaborators))
                           (standardReport 6) (2 + k)
               end)) /\
    (forall k, (2 <= k)%nat -> data' !! k = [olderObservation] !! k).
Proof.
  apply (standard_report_into_series
           (H := buoyCollaborators) (H0 := mergeCollaborators)
           (buoyWith (Some [olderObservation])) (standardReport 6) (-1)
           [olderObservation]).
  - reflexivity.
  - discriminate.
Defined.

(** X14 on the sample data. *)
Lemma standard_report_twice_is_once_witness :
  exists b1,
    ParseRawStandardData (H := buoyCollaborators) (H0 := mergeCollaborators)
      (buoyWith None) (standardReport 6) (-1) = Done (b1, None) /\
    ParseRawStandardData (H := buoyCollaborators) (H0 := mergeCollaborators)
      b1 (standardReport 6) (-1) = Done (b1, None).
Proof.
  eexists. split; [reflexivity|].
  apply (standard_report_twice_is_once
           (H := buoyCollaborators) (H0 := mergeCollaborators)
           (buoyWith None) _ (standardReport 6) (-1) None).
  - reflexivity.
  - reflexivity.
Defined.

(** X16 on the sample data. *)
Lemma detailed_report_into_empty_series_witness :
  ParseRawDetailedWaveData (H := buoyCollaborators) (H0 := mergeCollaborators)
    (buoyWith None) (detailedReport 6) 3
  = Done (Buoy.set_BuoyData
            (Some ((readingAt 15
                      (readDetailedLine (H := buoyCollaborators))
                      (detailedReport 6) <$> seq 2 (3 - 2))
                   ++ replicate (Nat.min 3 2) BuoyItem.zeroValue))
            (buoyWith None),
          None).
Proof.
  apply (detailed_report_into_empty_series
           (H := buoyCollaborators) (H0 := mergeCollaborators)
           (buoyWith None) (detailedReport 6) 3).
  - reflexivity.
  - vm_compute. lia.
Defined.

(** X17 on the sample data. *)
Lemma detailed_report_into_series_witness :
  let b := buoyWith (Some [olderObservation]) in
  exists data',
    ParseRawDetailedWaveData (H := buoyCollaborators) (H0 := mergeCollaborators)
      b (detailedReport 6) (-1)
    = Done (Buoy.set_BuoyData (Some data') b, None) /\
    length data' = Nat.max (length [olderObservation]) 2 /\
    (forall k, (k < 2)%nat ->
       data' !! k
       = Some (match [olderObservation] !! k with
               | Some existing =>
                   if gt (BuoyItem.DominantWavePeriod existing) zero
                   then MergeDetailedWaveDataReading
                          (MergeCollaborators := mergeCollaborators) existing
                          (readingAt 15 (readDetailedLine (H := buoyCollaborators))
                             (detailedReport 6) (2 + k))
                   else readingAt 15 (readDetailedLine (H := buoyCollaborators))
                          (detailedReport 6) (2 + k)
               | None => readingAt 15 (readDetailedLine (H := buoyCollaborators))
                           (detailedReport 6) (2 + k)
               end)) /\
    (forall k, (2 <= k)%nat -> data' !! k = [olderObservation] !! k).
Proof.
  apply (detailed_report_into_series
           (H := buoyCollaborators) (H0 := mergeCollaborators)
           (buoyWith (Some [olderObservation])) (detailedReport 6) (-1)
           [olderObservation]).
  - reflexivity.
  - discriminate.
Defined.

(** X22 on sample data: the top right corner of the box is not in the box. *)
Lemma ContainsLocation_excludes_border_witness :
  WaveWatch.ContainsLocation WaveWatch.TopRightCoord = false.
Proof.
  apply (ContainsLocation_excludes_border WaveWatch.TopRightCoord).
  right; left. reflexivity.
Defined.

(** A location of Rhode Island, within the box, is contained. *)
Example ContainsLocation_rhode_island :
  WaveWatch.ContainsLocation
    (WaveWatch.mkLocation (WaveWatch.decimal 41336872 6)
       (WaveWatch.decimal 288635294 6)) = true.
Proof. vm_compute. reflexivity. Qed.

